(** * SMID Snapshot API: scoring and provider fallback

    A shallow embedding of [main.py] (the single source file of the
    service) and the properties of its scorer, its star rating, the
    retrying Yahoo client, the FMP fallback client and the endpoint that
    chains them.

    Conventions of the embedding.
    - Python values that travel through the [info] and [metrics]
      dictionaries are [pyval]: [None], [int], [float] and [str].  A [bool]
      behaves as the [int] 0 or 1 in every operation used here.
    - A Python [float] is an IEEE 754 binary64 value, held as the Standard
      Library's [spec_float].  Comparisons between numbers are the exact
      comparisons of the values they denote (this is what CPython does, also
      between an [int] and a [float]); a NaN compares false with everything.
    - A Python [str] is held as its UTF-8 encoding in a Rocq [string];
      [py_len] counts code points, as Python's [len] does.
    - A dictionary is a [gmap string pyval]; [dict_get] is [dict.get] with
      its default [None].
    - Code that may raise returns a [result]; code that also calls the
      network or sleeps runs in the monad [io].
    - The [base_sleep] of the retry client is a float, held as the rational
      it denotes; the failures of the backoff (a power of two that is no
      float, a length [time.sleep] does not take) are in the model.
    - The response model is pydantic's: [Snapshot(...)] checks the fields
      whose type depends on what the providers sent. *)

From Stdlib Require Import ZArith QArith Floats String Ascii List Lia.
From stdpp Require Import base option list sorting strings pretty gmap.

Local Open Scope Z_scope.
Local Open Scope string_scope.

(** ** Python values *)

Inductive pyval : Type :=
| PyNone
| PyInt (z : Z)
| PyFloat (f : spec_float)
| PyStr (s : string).

(** Exceptions: FastAPI's [HTTPException], and any other subclass of
    [Exception], kept as its class name and its [str(e)]. *)
Inductive exn : Type :=
| HTTPException (status_code : Z) (detail : string)
| PyExc (cls : string) (msg : string).

Inductive result (A : Type) : Type :=
| Ok (a : A)
| Raise (e : exn).
Arguments Ok {A} a.
Arguments Raise {A} e.

#[global] Instance result_ret : MRet result := fun A a => Ok a.
#[global] Instance result_bind : MBind result :=
  fun A B f r => match r with Ok a => f a | Raise e => Raise e end.

Abbreviation dict := (gmap string pyval).

(** [m.get(k)] *)
Definition dict_get (m : dict) (k : string) : pyval := default PyNone (m !! k).

(** ** Numbers and their order *)

(** The value a number denotes: a rational, an infinity, or NaN. *)
Inductive xreal : Type :=
| XNaN
| XNegInf
| XFin (q : Q)
| XPosInf.

Definition float_val (f : spec_float) : xreal :=
  match f with
  | S754_zero _ => XFin 0
  | S754_infinity true => XNegInf
  | S754_infinity false => XPosInf
  | S754_nan => XNaN
  | S754_finite s m e => XFin (inject_Z (cond_Zopp s (Zpos m)) * Qpower 2 e)
  end.

Definition num_val (v : pyval) : option xreal :=
  match v with
  | PyInt z => Some (XFin (inject_Z z))
  | PyFloat f => Some (float_val f)
  | PyNone | PyStr _ => None
  end.

Definition Qltb (p q : Q) : bool :=
  match (p ?= q)%Q with Lt => true | _ => false end.

Definition xlt (a b : xreal) : bool :=
  match a, b with
  | XNaN, _ | _, XNaN => false
  | _, XNegInf => false
  | XNegInf, _ => true
  | XPosInf, _ => false
  | XFin _, XPosInf => true
  | XFin p, XFin q => Qltb p q
  end.

Definition xle (a b : xreal) : bool :=
  match a, b with
  | XNaN, _ | _, XNaN => false
  | XNegInf, _ => true
  | _, XNegInf => false
  | _, XPosInf => true
  | XPosInf, _ => false
  | XFin p, XFin q => Qle_bool p q
  end.

Definition type_name (v : pyval) : string :=
  match v with
  | PyNone => "NoneType"
  | PyInt _ => "int"
  | PyFloat _ => "float"
  | PyStr _ => "str"
  end.

Definition unsupported (op : string) (a b : pyval) : exn :=
  PyExc "TypeError"
    ("'" +:+ op +:+ "' not supported between instances of '"
         +:+ type_name a +:+ "' and '" +:+ type_name b +:+ "'").

(** The rich comparisons [a < b], [a <= b], [a >= b]: numbers by value,
    strings lexicographically, anything else is a [TypeError]. *)
Definition py_lt (a b : pyval) : result bool :=
  match num_val a, num_val b with
  | Some x, Some y => Ok (xlt x y)
  | _, _ =>
      match a, b with
      | PyStr s, PyStr t => Ok (String.ltb s t)
      | _, _ => Raise (unsupported "<" a b)
      end
  end.

Definition py_le (a b : pyval) : result bool :=
  match num_val a, num_val b with
  | Some x, Some y => Ok (xle x y)
  | _, _ =>
      match a, b with
      | PyStr s, PyStr t => Ok (String.leb s t)
      | _, _ => Raise (unsupported "<=" a b)
      end
  end.

Definition py_ge (a b : pyval) : result bool :=
  match num_val a, num_val b with
  | Some x, Some y => Ok (xle y x)
  | _, _ =>
      match a, b with
      | PyStr s, PyStr t => Ok (String.leb t s)
      | _, _ => Raise (unsupported ">=" a b)
      end
  end.

(** Truth value of an object, and [a or b]. *)
Definition truthy (v : pyval) : bool :=
  match v with
  | PyNone => false
  | PyInt z => negb (z =? 0)%Z
  | PyFloat (S754_zero _) => false
  | PyFloat _ => true
  | PyStr EmptyString => false
  | PyStr _ => true
  end.

Definition py_or (a b : pyval) : pyval := if truthy a then a else b.

Definition is_not_none (v : pyval) : bool :=
  match v with PyNone => false | _ => true end.

(** [v is not None and c]: [c] is only evaluated when [v] is not [None]. *)
Definition not_none_and (v : pyval) (c : result bool) : result bool :=
  if is_not_none v then c else Ok false.

(** [a if c1 else b if c2 else c] *)
Definition if_else_chain (c1 : result bool) (a : Z) (c2 : result bool) (b c : Z)
  : result Z :=
  t1 ← c1;
  if t1 : bool then Ok a
  else t2 ← c2; Ok (if t2 : bool then b else c).

(** The float literals of [score_company], as the binary64 values the
    Python parser reads them to. *)
Definition f_1_0  : spec_float := S754_finite false 4503599627370496 (-52).
Definition f_1_5  : spec_float := S754_finite false 6755399441055744 (-52).
Definition f_0_5  : spec_float := S754_finite false 4503599627370496 (-53).
Definition f_0_12 : spec_float := S754_finite false 8646911284551352 (-56).
Definition f_0_08 : spec_float := S754_finite false 5764607523034235 (-56).
Definition f_0_15 : spec_float := S754_finite false 5404319552844595 (-55).
Definition f_0_20 : spec_float := S754_finite false 7205759403792794 (-55).

(** ** The scorer *)

(** The body of [score_company] up to its [return]: the running [score]. *)
Definition score_sum (m : dict) : result Z :=
  let score := 0 in
  let pe := dict_get m "pe_fwd" in
  let peg := dict_get m "peg_fwd" in
  p ← if_else_chain (not_none_and pe (py_lt pe (PyInt 18))) 20
                    (not_none_and pe (py_lt pe (PyInt 25))) 10 0;
  let score := score + p in
  p ← if_else_chain (not_none_and peg (py_le peg (PyFloat f_1_0))) 20
                    (not_none_and peg (py_le peg (PyFloat f_1_5))) 10 0;
  let score := score + p in
  let roic := py_or (py_or (dict_get m "roic") (PyInt 0)) (PyInt 0) in
  let opm := py_or (py_or (dict_get m "op_margin") (PyInt 0)) (PyInt 0) in
  p ← if_else_chain (py_ge roic (PyFloat f_0_12)) 20
                    (py_ge roic (PyFloat f_0_08)) 10 0;
  let score := score + p in
  p ← if_else_chain (py_ge opm (PyFloat f_0_15)) 10
                    (py_ge opm (PyFloat f_0_08)) 5 0;
  let score := score + p in
  let rev := py_or (py_or (dict_get m "rev_yoy") (PyInt 0)) (PyInt 0) in
  let eps := py_or (py_or (dict_get m "eps_yoy") (PyInt 0)) (PyInt 0) in
  p ← if_else_chain (py_ge rev (PyFloat f_0_20)) 15
                    (py_ge rev (PyFloat f_0_12)) 8 0;
  let score := score + p in
  p ← if_else_chain (py_ge eps (PyFloat f_0_20)) 15
                    (py_ge eps (PyFloat f_0_12)) 8 0;
  let score := score + p in
  let de := dict_get m "de_ratio" in
  p ← if_else_chain (not_none_and de (py_le de (PyFloat f_0_5))) 10
                    (not_none_and de (py_le de (PyFloat f_1_0))) 5 0;
  let score := score + p in
  Ok score.

(** [score_company]: the running score, then [max(0, min(100, score))]. *)
Definition score_company (m : dict) : result Z :=
  score ← score_sum m;
  Ok (Z.max 0 (Z.min 100 score)).

(** ** The star rating *)

(** [s * n] for a string [s] and an integer [n]. *)
Definition str_mul (s : string) (n : Z) : string :=
  Nat.iter (Z.to_nat n) (fun acc => s +:+ acc) "".

(** A byte 10xxxxxx continues a code point. *)
Definition is_continuation (a : ascii) : bool :=
  match a with
  | Ascii _ _ _ _ _ _ false true => true
  | _ => false
  end.

(** [len(s)]: the number of code points of [s]. *)
Fixpoint py_len (s : string) : nat :=
  match s with
  | EmptyString => 0%nat
  | String a s' => ((if is_continuation a then 0 else 1) + py_len s')%nat
  end.

Definition star_table : list (Z * Z) :=
  [(80, 5); (60, 4); (40, 3); (20, 2); (0, 1)].

(** The [for] loop of [stars_from_score]; running off the table is the
    implicit [return None]. *)
Fixpoint stars_loop (table : list (Z * Z)) (score : Z) : option (Z * string) :=
  match table with
  | [] => None
  | (th, s) :: rest =>
      if (th <=? score)%Z then Some (s, str_mul "★" s +:+ str_mul "☆" (5 - s))
      else stars_loop rest score
  end.

Definition stars_from_score (score : Z) : option (Z * string) :=
  stars_loop star_table score.

(** ** Strings *)

(** [pat in s] *)
Fixpoint str_in (pat s : string) : bool :=
  String.prefix pat s ||
  match s with
  | EmptyString => false
  | String _ s' => str_in pat s'
  end.

(** [s.upper()], on the ASCII letters a ticker is made of. *)
Definition ascii_upper (a : ascii) : ascii :=
  let n := nat_of_ascii a in
  if ((97 <=? n) && (n <=? 122))%nat then ascii_of_nat (n - 32) else a.

Fixpoint upper (s : string) : string :=
  match s with
  | EmptyString => EmptyString
  | String a s' => String (ascii_upper a) (upper s')
  end.

(** [str(e)]; Starlette prints an [HTTPException] as its status code, a
    colon and its detail. *)
Definition str_exn (e : exn) : string :=
  match e with
  | HTTPException sc d => pretty sc +:+ ": " +:+ d
  | PyExc _ msg => msg
  end.

(** [str(last_err)], where [last_err] may still be [None]. *)
Definition str_last_err (last_err : option exn) : string :=
  match last_err with
  | None => "None"
  | Some e => str_exn e
  end.

(** ** The outside world and the effects of a request *)

(** What [r.json()] may hold: a list of records, a record, or anything
    else. *)
Inductive json : Type :=
| JList (l : list dict)
| JDict (d : dict)
| JAtom (v : pyval).

(** Everything a request reads from outside the process. *)
Record world : Type := {
  (** what the [n]-th call of [yf.Ticker(ticker).get_info()] does *)
  yahoo_get_info : string -> nat -> result dict;
  (** what [t.fast_info.get("last_price")] does *)
  yahoo_last_price : string -> result pyval;
  (** [os.environ.get("FMP_API_KEY")] *)
  FMP_KEY : option string;
  (** [requests.get(url, params=params, timeout=20)], [raise_for_status()]
      and [json()], for the secondary provider *)
  http_get_json : string -> gmap string string -> result json;
  (** the answer of the filings directory for an identifier: the part of
      [latest_filing] after its guard, which returns a link or [None] and
      raises nothing *)
  sec_latest_filing : pyval -> option string;
  (** how pydantic reads, for a field annotated [float | None], a value
      that is neither [None] nor a float: the float it makes of an int or
      of a numeric string, or nothing when it rejects the value *)
  pydantic_float : pyval -> option spec_float
}.

(** What a request has done so far. *)
Record trace : Type := {
  calls : nat;            (* calls of [get_info] *)
  sleeps : list Q;        (* arguments of [time.sleep], oldest first *)
  requests : list string  (* URLs fetched from the secondary provider *)
}.

Definition start : trace := {| calls := 0; sleeps := []; requests := [] |}.

Definition io (A : Type) : Type := trace -> result A * trace.

#[global] Instance io_ret : MRet io := fun A a st => (Ok a, st).
#[global] Instance io_bind : MBind io :=
  fun A B f c st =>
    match c st with
    | (Ok a, st') => f a st'
    | (Raise e, st') => (Raise e, st')
    end.

Definition raise {A : Type} (e : exn) : io A := fun st => (Raise e, st).

Definition lift {A : Type} (r : result A) : io A := fun st => (r, st).

(** [try: c  except Exception as e: ...]: the outcome of [c] as a value. *)
Definition try_ {A : Type} (c : io A) : io (result A) :=
  fun st => let '(r, st') := c st in (Ok r, st').

Definition get_info (w : world) (ticker : string) : io dict :=
  fun st =>
    (yahoo_get_info w ticker (calls st),
     {| calls := S (calls st); sleeps := sleeps st; requests := requests st |}).

(** CPython turns the length of a sleep into a count of nanoseconds, rounded
    away from zero, that must fit a signed 64-bit integer: about 292 years. *)
Definition sleep_fits (secs : Q) : bool :=
  Qle_bool (- inject_Z (2 ^ 63)) (secs * inject_Z (10 ^ 9)) &&
  Qle_bool (secs * inject_Z (10 ^ 9)) (inject_Z (2 ^ 63 - 1)).

(** [time.sleep(secs)]: a length that does not fit is an [OverflowError], a
    negative one a [ValueError]. *)
Definition sleep (secs : Q) : io unit :=
  fun st =>
    if negb (sleep_fits secs) then
      (Raise (PyExc "OverflowError"
                "timestamp too large to convert to C _PyTime_t"), st)
    else if Qltb secs 0 then
      (Raise (PyExc "ValueError" "sleep length must be non-negative"), st)
    else
      (Ok tt, {| calls := calls st; sleeps := sleeps st ++ [secs];
                 requests := requests st |}).

(** [2 ** attempt] as the float Python makes of it before it multiplies a
    float by it: a power of two is a float up to [2 ** 1023]; from
    [2 ** 1024] on the conversion is an [OverflowError]. *)
Definition float_of_pow2 (attempt : Z) : result Q :=
  if (attempt <? 1024)%Z then Ok (inject_Z (2 ^ attempt))
  else Raise (PyExc "OverflowError" "int too large to convert to float").

Definition requests_get (w : world) (url : string) (params : gmap string string)
  : io json :=
  fun st =>
    (http_get_json w url params,
     {| calls := calls st; sleeps := sleeps st;
        requests := requests st ++ [url] |}).

(** ** Yahoo (primary) with retry *)

Definition transient_signatures : list string :=
  ["429"; "Too Many Requests"; "Invalid Crumb"; "timed out"; "Max retries"; "EOF"].

Definition transient (msg : string) : bool :=
  existsb (fun s => str_in s msg) transient_signatures.

Definition rate_limited (msg : string) : bool :=
  str_in "429" msg || str_in "Too Many Requests" msg || str_in "Invalid Crumb" msg.

(** How the [for] loop ends: by its [return], or by [break] or exhaustion
    with the [last_err] of that moment. *)
Inductive loop_end : Type :=
| Returned (info : dict)
| Fell (last_err : option exn).

(** The [for attempt in range(max_retries)] loop over the attempts left.
    [base_sleep] is a float, held as the rational it denotes: its product
    with a power of two that is a float is exact, unless it leaves the range
    of the floats, and then it is no length [time.sleep] takes either. *)
Fixpoint retry_loop (w : world) (ticker : string) (max_retries : Z)
    (base_sleep : Q) (attempts : list Z) (last_err : option exn) : io loop_end :=
  match attempts with
  | [] => mret (Fell last_err)
  | attempt :: rest =>
      r ← try_ (info ← get_info w ticker;
               if bool_decide (info ≠ ∅) then mret info
               else raise (PyExc "ValueError" "Empty info payload"));
      match r with
      | Ok info => mret (Returned info)
      | Raise e =>
          let msg := str_exn e in
          let last_err := Some e in
          if (attempt <? max_retries - 1)%Z && transient msg then
            p ← lift (float_of_pow2 attempt);
            _ ← sleep (base_sleep * p);
            retry_loop w ticker max_retries base_sleep rest last_err
          else mret (Fell last_err)
      end
  end.

Definition fetch_yahoo_info_with_retry (w : world) (ticker : string)
    (max_retries : Z) (base_sleep : Q) : io dict :=
  let last_err := None in
  l ← retry_loop w ticker max_retries base_sleep (seqZ 0 max_retries) last_err;
  match l with
  | Returned info => mret info
  | Fell last_err =>
      if rate_limited (str_last_err last_err) then
        raise (HTTPException 429 "Yahoo blocked the request (rate/crumb).")
      else
        raise (HTTPException 502
                 ("Yahoo request failed: " +:+ str_last_err last_err))
  end.

(** The defaults of the signature. *)
Definition default_max_retries : Z := 4.
Definition default_base_sleep : Q := 1.5.

(** ** FMP (fallback provider) *)

Definition FMP_BASE : string := "https://financialmodelingprep.com/api/v3".

(** Truth value of [FMP_KEY]: unset and empty are both false. *)
Definition key_set (k : option string) : option string :=
  match k with
  | Some (String a s) => Some (String a s)
  | _ => None
  end.

Definition fmp_get (w : world) (path : string)
    (params : option (gmap string string)) : io json :=
  match key_set (FMP_KEY w) with
  | None =>
      raise (HTTPException 503 "FMP API key not set. Set FMP_API_KEY env var.")
  | Some key =>
      let params := default ∅ params in
      let params := <["apikey" := key]> params in
      let url := FMP_BASE +:+ path in
      requests_get w url params
  end.

(** [x[0] if isinstance(x, list) and x else {}] *)
Definition first_record (x : json) : dict :=
  match x with
  | JList (d :: _) => d
  | _ => ∅
  end.

Definition fetch_fmp_info (w : world) (ticker : string) : io dict :=
  r ← try_ (profile ← fmp_get w ("/profile/" +:+ ticker) None;
            mret (first_record profile));
  match r with
  | Raise e => raise (HTTPException 502 ("FMP profile error: " +:+ str_exn e))
  | Ok profile =>
      r ← try_ (ratios ← fmp_get w ("/ratios-ttm/" +:+ ticker) None;
                mret (first_record ratios));
      let ratios := match r with Ok ratios => ratios | Raise _ => ∅ end in
      r ← try_ (growth ← fmp_get w ("/financial-growth/" +:+ ticker) None;
                mret (first_record growth));
      let growth := match r with Ok growth => growth | Raise _ => ∅ end in
      let info : dict :=
        <["longName" := py_or (dict_get profile "companyName")
                              (dict_get profile "symbol")]>
        (<["currentPrice" := dict_get profile "price"]>
        (<["marketCap" := dict_get profile "mktCap"]>
        (<["forwardPE" := dict_get ratios "priceEarningsRatioTTM"]>
        (<["pegRatio" := PyNone]>
        (<["grossMargins" := dict_get ratios "grossProfitMarginTTM"]>
        (<["operatingMargins" := dict_get ratios "operatingProfitMarginTTM"]>
        (<["revenueGrowth" := dict_get growth "revenueGrowthTTM"]>
        (<["earningsGrowth" := dict_get growth "epsgrowthTTM"]>
        (<["returnOnEquity" := dict_get ratios "returnOnEquityTTM"]>
        (<["returnOnCapitalEmployed" :=
             py_or (dict_get ratios "returnOnCapitalEmployedTTM")
                   (dict_get ratios "returnOnInvestedCapitalTTM")]>
        (<["debtToEquity" := dict_get ratios "debtEquityRatioTTM"]>
        (<["cik" := dict_get profile "cik"]> ∅)))))))))))) in
      mret info
  end.

(** ** The endpoint *)

Record Snapshot : Type := {
  ticker : string;
  name : pyval;
  price : pyval;
  market_cap : pyval;
  metrics : dict;
  composite_score : Z;
  stars : Z;
  stars_text : string;
  filings : option string;   (* the entry "latest_10q_or_10k" *)
  notes : string
}.

(** A field annotated [str | None] takes [None] or a string (pydantic 2
    does not turn a number into a string). *)
Definition str_or_none (v : pyval) : option pyval :=
  match v with
  | PyNone | PyStr _ => Some v
  | PyInt _ | PyFloat _ => None
  end.

(** A field annotated [float | None] takes [None] or a float as it is, and
    a value that pydantic can read as a float as that float. *)
Definition float_or_none (w : world) (v : pyval) : option pyval :=
  match v with
  | PyNone | PyFloat _ => Some v
  | PyInt _ | PyStr _ => PyFloat <$> pydantic_float w v
  end.

Definition rejected (field : string) (checked : option pyval) : list string :=
  match checked with
  | Some _ => []
  | None => [field]
  end.

(** [Snapshot(...)], a pydantic model: [name], [price] and [market_cap] are
    checked against their annotations (the other arguments are of their
    annotated types whatever the providers sent), and one [ValidationError]
    is raised for the fields that are rejected.  Its report is kept as the
    names of those fields. *)
Definition new_Snapshot (w : world) (ticker : string)
    (name price market_cap : pyval) (metrics : dict)
    (composite_score stars : Z) (stars_text : string)
    (filings : option string) (notes : string) : result Snapshot :=
  let name' := str_or_none name in
  let price' := float_or_none w price in
  let market_cap' := float_or_none w market_cap in
  match name', price', market_cap' with
  | Some name, Some price, Some market_cap =>
      Ok {| ticker := ticker; name := name; price := price;
            market_cap := market_cap; metrics := metrics;
            composite_score := composite_score; stars := stars;
            stars_text := stars_text; filings := filings; notes := notes |}
  | _, _, _ =>
      Raise (PyExc "ValidationError"
               (String.concat ", "
                  (rejected "name" name' ++ rejected "price" price'
                   ++ rejected "market_cap" market_cap')))
  end.

(** [latest_filing]: nothing for a false identifier; otherwise whatever the
    filings directory yields. *)
Definition latest_filing (w : world) (cik : pyval) : option string :=
  if negb (truthy cik) then None else sec_latest_filing w cik.

(** Step 3 of [get_company]: the provider-agnostic metrics. *)
Definition build_metrics (info : dict) : dict :=
  <["pe_fwd" := dict_get info "forwardPE"]>
  (<["pe" := dict_get info "PE"]>
  (<["peg_fwd" := dict_get info "pegRatio"]>
  (<["gross_margin" := dict_get info "grossMargins"]>
  (<["op_margin" := dict_get info "operatingMargins"]>
  (<["rev_yoy" := dict_get info "revenueGrowth"]>
  (<["eps_yoy" := dict_get info "earningsGrowth"]>
  (<["roic" := py_or (py_or (dict_get info "returnOnCapitalEmployed")
                            (dict_get info "returnOnInvestedCapitalTTM"))
                     (dict_get info "returnOnEquity")]>
  (<["de_ratio" := dict_get info "debtToEquity"]> ∅)))))))).

Definition get_company (w : world) (ticker : string) : io Snapshot :=
  (* 1) Yahoo first; only an HTTPException switches to FMP *)
  r ← try_ (fetch_yahoo_info_with_retry w ticker
              default_max_retries default_base_sleep);
  '(use_fmp, info, name, price, mcap) ←
    match r with
    | Raise (HTTPException _ _) =>
        info ← fetch_fmp_info w ticker;
        let price := dict_get info "currentPrice" in
        let name := py_or (dict_get info "longName") (PyStr (upper ticker)) in
        let mcap := dict_get info "marketCap" in
        mret (true, info, name, price, mcap)
    | Raise e => raise e
    | Ok info =>
        let name := py_or (py_or (dict_get info "longName")
                                 (dict_get info "shortName"))
                          (PyStr (upper ticker)) in
        let price := py_or (dict_get info "currentPrice")
                           (dict_get info "regularMarketPrice") in
        let price :=
          if is_not_none price then price
          else match yahoo_last_price w ticker with
               | Ok p => p
               | Raise _ => PyNone
               end in
        let mcap := dict_get info "marketCap" in
        mret (false, info, name, price, mcap)
    end;
  let metrics := build_metrics info in
  let filings := latest_filing w (dict_get info "cik") in
  composite ← lift (score_company metrics);
  match stars_from_score composite with
  | None =>
      raise (PyExc "TypeError" "cannot unpack non-iterable NoneType object")
  | Some (stars, stars_text) =>
      let provider_note :=
        if negb use_fmp then "Yahoo primary"
        else "FMP fallback (Yahoo blocked/crumb/rate limit)" in
      lift (new_Snapshot w (upper ticker) name price mcap metrics
              composite stars stars_text filings
              (provider_note +:+ ". Data cached 1h."))
  end.

(** ** Vocabulary of the statements *)

(** The fields [score_company] reads. *)
Definition scored_keys : list string :=
  ["pe_fwd"; "peg_fwd"; "roic"; "op_margin"; "rev_yoy"; "eps_yoy"; "de_ratio"].

(** A field of a metrics record is absent ([None]) or a number. *)
Definition metric_value (v : pyval) : bool :=
  match v with
  | PyStr _ => false
  | _ => true
  end.

Definition metrics_record (m : dict) : bool :=
  forallb (fun k => metric_value (dict_get m k)) scored_keys.

(** [a <= b] between two numbers (false when either is not a number, or is
    NaN). *)
Definition num_le (a b : pyval) : bool :=
  match num_val a, num_val b with
  | Some x, Some y => xle x y
  | _, _ => false
  end.

Definition lower_is_better : list string := ["pe_fwd"; "peg_fwd"; "de_ratio"].
Definition higher_is_better : list string :=
  ["roic"; "op_margin"; "rev_yoy"; "eps_yoy"].

(** Field [k] moves from [old] to [new] in its improving direction. *)
Definition improves (k : string) (old new : pyval) : Prop :=
  (k ∈ lower_is_better ∧ num_le new old = true) ∨
  (k ∈ higher_is_better ∧ num_le old new = true).

(** The three shapes of a line [score += a if .. else b if .. else 0], as
    functions of the field read and of the two thresholds. *)
Definition lt_tier (v : pyval) (t1 : pyval) (a : Z) (t2 : pyval) (b : Z)
  : result Z :=
  if_else_chain (not_none_and v (py_lt v t1)) a
                (not_none_and v (py_lt v t2)) b 0.

Definition le_tier (v : pyval) (t1 : pyval) (a : Z) (t2 : pyval) (b : Z)
  : result Z :=
  if_else_chain (not_none_and v (py_le v t1)) a
                (not_none_and v (py_le v t2)) b 0.

Definition ge_tier (v : pyval) (t1 : pyval) (a : Z) (t2 : pyval) (b : Z)
  : result Z :=
  let x := py_or (py_or v (PyInt 0)) (PyInt 0) in
  if_else_chain (py_ge x t1) a (py_ge x t2) b 0.

(** ** Sample inputs *)

Definition best_metrics : dict :=
  <["pe_fwd" := PyInt 15]>
  (<["peg_fwd" := PyFloat f_1_0]>
  (<["roic" := PyFloat f_0_12]>
  (<["op_margin" := PyFloat f_0_15]>
  (<["rev_yoy" := PyFloat f_0_20]>
  (<["eps_yoy" := PyFloat f_0_20]>
  (<["de_ratio" := PyFloat f_0_5]> ∅)))))).

(** How the sample worlds read a value as a float: an int as the float
    nearest to it; no sample payload holds a numeric string. *)
Definition int_as_float (v : pyval) : option spec_float :=
  match v with
  | PyInt z => Some (binary_normalize 53 1024 z 0 false)
  | _ => None
  end.

Definition silent_world : world :=
  {| yahoo_get_info := fun _ _ => Ok ∅;
     yahoo_last_price := fun _ => Ok PyNone;
     FMP_KEY := None;
     http_get_json := fun _ _ => Ok (JList []);
     sec_latest_filing := fun _ => None;
     pydantic_float := int_as_float |}.

(** Yahoo answers every call with a rate-limit error; no FMP key is set. *)
Definition blocked_world : world :=
  {| yahoo_get_info :=
       fun _ _ => Raise (PyExc "HTTPError" "429 Client Error: Too Many Requests");
     yahoo_last_price := fun _ => Ok PyNone;
     FMP_KEY := None;
     http_get_json := fun _ _ => Ok (JList []);
     sec_latest_filing := fun _ => None;
     pydantic_float := int_as_float |}.

(** Yahoo times out on every call. *)
Definition slow_world : world :=
  {| yahoo_get_info := fun _ _ => Raise (PyExc "ReadTimeout" "Read timed out.");
     yahoo_last_price := fun _ => Ok PyNone;
     FMP_KEY := None;
     http_get_json := fun _ _ => Ok (JList []);
     sec_latest_filing := fun _ => None;
     pydantic_float := int_as_float |}.

Definition acme_profile : dict :=
  <["companyName" := PyStr "Acme Corp"]>
  (<["price" := PyInt 50]>
  (<["mktCap" := PyInt 1000000000]>
  (<["cik" := PyStr "0000123456"]> ∅))).

Definition acme_growth : dict :=
  <["revenueGrowthTTM" := PyFloat f_0_20]>
  (<["epsgrowthTTM" := PyFloat f_0_12]> ∅).

(** FMP has a key and answers the profile and growth requests; the ratios
    request fails. *)
Definition ratios_down_world : world :=
  {| yahoo_get_info := fun _ _ => Raise (PyExc "HTTPError" "429");
     yahoo_last_price := fun _ => Ok PyNone;
     FMP_KEY := Some "k";
     http_get_json := fun url _ =>
       if String.eqb url (FMP_BASE +:+ "/profile/ACME") then
         Ok (JList [acme_profile])
       else if String.eqb url (FMP_BASE +:+ "/financial-growth/ACME") then
         Ok (JList [acme_growth])
       else Raise (PyExc "HTTPError" "500 Server Error");
     sec_latest_filing := fun _ => None;
     pydantic_float := int_as_float |}.

(** FMP has a key but its profile request fails. *)
Definition profile_down_world : world :=
  {| yahoo_get_info := fun _ _ => Raise (PyExc "HTTPError" "429");
     yahoo_last_price := fun _ => Ok PyNone;
     FMP_KEY := Some "k";
     http_get_json := fun _ _ => Raise (PyExc "HTTPError" "500 Server Error");
     sec_latest_filing := fun _ => None;
     pydantic_float := int_as_float |}.

(** The outcome of one FMP sub-request; it does not depend on what the
    request has done before. *)
Definition fmp_outcome (w : world) (path : string) : result json :=
  fst (fmp_get w path None start).

(** The trace after [k] more calls of [get_info] and the sleeps [sl]. *)
Definition advance (st : trace) (k : nat) (sl : list Q) : trace :=
  {| calls := k + calls st; sleeps := sleeps st ++ sl; requests := requests st |}.

(** The sleep lengths [base_sleep * 2 ** attempt] of a list of attempts. *)
Definition backoff (base_sleep : Q) (attempts : list Z) : list Q :=
  (fun attempt => base_sleep * inject_Z (2 ^ attempt))%Q <$> attempts.

(** The backoff after attempt [a] goes through: [2 ** a] is a float and
    the length is one [time.sleep] takes. *)
Definition backoff_ok (base_sleep : Q) (a : Z) : Prop :=
  a < 1024 /\ sleep_fits (base_sleep * inject_Z (2 ^ a)) = true.

(** The [n]-th call of [get_info] from trace [st] on fails with a transient
    signature. *)
Definition transient_failure (w : world) (ticker : string) (st : trace) (n : nat)
  : Prop :=
  exists e, yahoo_get_info w ticker (n + calls st) = Raise e /\
            transient (str_exn e) = true.

(** The trace after one FMP sub-request. *)
Definition fmp_after (w : world) (path : string) (st : trace) : trace :=
  snd (fmp_get w path None st).

(** The entries of [info] that [fetch_fmp_info] fills from the ratios and
    from the growth sub-request. *)
Definition ratio_fields : list string :=
  ["forwardPE"; "grossMargins"; "operatingMargins"; "returnOnEquity";
   "returnOnCapitalEmployed"; "debtToEquity"].
Definition growth_fields : list string := ["revenueGrowth"; "earningsGrowth"].

(** ** Vocabulary of the further properties *)

(** Call number [n] of [get_info] ends its attempt with the exception [e]:
    it raised [e], or it returned an empty payload and [e] is the
    [ValueError] raised for that. *)
Definition attempt_fails (w : world) (ticker : string) (n : nat) (e : exn)
  : Prop :=
  yahoo_get_info w ticker n = Raise e \/
  (yahoo_get_info w ticker n = Ok ∅ /\
   e = PyExc "ValueError" "Empty info payload").

(** The fields on which every line of [score_company] goes through: a
    compared field holds [None] or a number; a field read with [or 0] may
    also hold anything false. *)
Definition scorable (m : dict) : bool :=
  forallb (fun k => metric_value (dict_get m k)) lower_is_better &&
  forallb (fun k => metric_value (dict_get m k) || negb (truthy (dict_get m k)))
          higher_is_better.

(** The keys of the dictionary [fetch_fmp_info] returns. *)
Definition fmp_info_keys : gset string :=
  list_to_set
    ["longName"; "currentPrice"; "marketCap"; "forwardPE"; "pegRatio";
     "grossMargins"; "operatingMargins"; "revenueGrowth"; "earningsGrowth";
     "returnOnEquity"; "returnOnCapitalEmployed"; "debtToEquity"; "cik"].

(** The entries of [info] that reach the score through [build_metrics]. *)
Definition scored_info_keys : list string :=
  ["forwardPE"; "pegRatio"; "operatingMargins"; "revenueGrowth";
   "earningsGrowth"; "returnOnCapitalEmployed"; "returnOnInvestedCapitalTTM";
   "returnOnEquity"; "debtToEquity"].

(** Steps 3 to 6 of [get_company], once a provider has answered. *)
Definition respond (w : world) (ticker : string) (use_fmp : bool) (info : dict)
    (name price mcap : pyval) : result Snapshot :=
  let metrics := build_metrics info in
  let filings := latest_filing w (dict_get info "cik") in
  composite ← score_company metrics;
  match stars_from_score composite with
  | None =>
      Raise (PyExc "TypeError" "cannot unpack non-iterable NoneType object")
  | Some (stars, stars_text) =>
      let provider_note :=
        if negb use_fmp then "Yahoo primary"
        else "FMP fallback (Yahoo blocked/crumb/rate limit)" in
      new_Snapshot w (upper ticker) name price mcap metrics
        composite stars stars_text filings
        (provider_note +:+ ". Data cached 1h.")
  end.

(** Yahoo fails twice with a rate-limit error, then answers. *)
Definition acme_info : dict :=
  <["longName" := PyStr "Acme Corp"]>
  (<["currentPrice" := PyInt 50]>
  (<["forwardPE" := PyInt 15]>
  (<["pegRatio" := PyFloat f_1_0]>
  (<["grossMargins" := PyFloat f_0_5]>
  (<["returnOnEquity" := PyFloat f_0_15]> ∅))))).

Definition recovering_world : world :=
  {| yahoo_get_info := fun _ n =>
       if (n <? 2)%nat then Raise (PyExc "HTTPError" "429 Too Many Requests")
       else Ok acme_info;
     yahoo_last_price := fun _ => Ok PyNone;
     FMP_KEY := None;
     http_get_json := fun _ _ => Ok (JList []);
     sec_latest_filing := fun _ => None;
     pydantic_float := int_as_float |}.

(** The scenario of the spec: Yahoo returns an empty payload twice, then
    answers. *)
Definition empty_first_world : world :=
  {| yahoo_get_info := fun _ n => if (n <? 2)%nat then Ok ∅ else Ok acme_info;
     yahoo_last_price := fun _ => Ok PyNone;
     FMP_KEY := None;
     http_get_json := fun _ _ => Ok (JList []);
     sec_latest_filing := fun _ => None;
     pydantic_float := int_as_float |}.

(** Yahoo answers at once, with a price that is no number. *)
Definition na_price_world : world :=
  {| yahoo_get_info := fun _ _ =>
       Ok (<["currentPrice" := PyStr "N/A"]> acme_info);
     yahoo_last_price := fun _ => Ok PyNone;
     FMP_KEY := None;
     http_get_json := fun _ _ => Ok (JList []);
     sec_latest_filing := fun _ => None;
     pydantic_float := int_as_float |}.

(** Yahoo fails once with a rate-limit error, then with an error of no known
    signature. *)
Definition broken_world : world :=
  {| yahoo_get_info := fun _ n =>
       if (n <? 1)%nat then Raise (PyExc "HTTPError" "429 Too Many Requests")
       else Raise (PyExc "KeyError" "quoteSummary");
     yahoo_last_price := fun _ => Ok PyNone;
     FMP_KEY := None;
     http_get_json := fun _ _ => Ok (JList []);
     sec_latest_filing := fun _ => None;
     pydantic_float := int_as_float |}.

(** Yahoo is blocked; FMP has a key and answers every request with an empty
    list. *)
Definition empty_fmp_world : world :=
  {| yahoo_get_info := fun _ _ => Raise (PyExc "HTTPError" "429");
     yahoo_last_price := fun _ => Ok PyNone;
     FMP_KEY := Some "k";
     http_get_json := fun _ _ => Ok (JList []);
     sec_latest_filing := fun _ => Some "https://www.sec.gov/";
     pydantic_float := int_as_float |}.

(** The float literals of the scorer are what the decimal notation denotes
    in binary64. *)
Local Set Warnings "-inexact-float".
Lemma float_literals :
  Prim2SF 1.0 = f_1_0 /\ Prim2SF 1.5 = f_1_5 /\ Prim2SF 0.5 = f_0_5 /\
  Prim2SF 0.12 = f_0_12 /\ Prim2SF 0.08 = f_0_08 /\
  Prim2SF 0.15 = f_0_15 /\ Prim2SF 0.20 = f_0_20.
Proof. repeat split; vm_compute; reflexivity. Qed.

(** ** The order on numbers *)

Lemma Qltb_lt (p q : Q) : Qltb p q = true <-> (p < q)%Q.
Proof.
  unfold Qltb. rewrite Qlt_alt.
  destruct (p ?= q)%Q; split; congruence.
Qed.

Lemma xle_xlt_trans (a b c : xreal) :
  xle a b = true -> xlt b c = true -> xlt a c = true.
Proof.
  destruct a, b, c; simpl; try congruence.
  rewrite Qle_bool_iff, !Qltb_lt. apply Qle_lt_trans.
Qed.

Lemma xle_trans (a b c : xreal) :
  xle a b = true -> xle b c = true -> xle a c = true.
Proof.
  destruct a, b, c; simpl; try congruence.
  rewrite !Qle_bool_iff. apply Qle_trans.
Qed.

(** A false number counts as the integer 0, which has the same value. *)
Lemma num_val_or_zero (v : pyval) (x : xreal) :
  num_val v = Some x ->
  num_val (py_or (py_or v (PyInt 0)) (PyInt 0)) = Some x.
Proof.
  unfold py_or. destruct v as [|z|f|s]; simpl; try discriminate.
  - destruct (Z.eqb_spec z 0) as [->|Hz]; simpl.
    + auto.
    + destruct (Z.eqb_spec z 0); [contradiction|]. auto.
  - destruct f as [s|s| |s m e]; simpl; auto.
Qed.

(** ** The lines of the scorer *)

Lemma metric_value_cases (v : pyval) :
  metric_value v = true -> v = PyNone \/ exists x, num_val v = Some x.
Proof. destruct v; simpl; intros; try discriminate; eauto. Qed.

Lemma num_val_not_none (v : pyval) (x : xreal) :
  num_val v = Some x -> is_not_none v = true.
Proof. destruct v; simpl; congruence. Qed.

Lemma lt_tier_num v t1 a t2 b x x1 x2 :
  num_val v = Some x -> num_val t1 = Some x1 -> num_val t2 = Some x2 ->
  lt_tier v t1 a t2 b = Ok (if xlt x x1 then a else if xlt x x2 then b else 0).
Proof.
  intros Hv H1 H2. unfold lt_tier, not_none_and, py_lt.
  rewrite (num_val_not_none _ _ Hv), Hv, H1, H2. simpl.
  destruct (xlt x x1); [reflexivity|]. simpl. by destruct (xlt x x2).
Qed.

Lemma le_tier_num v t1 a t2 b x x1 x2 :
  num_val v = Some x -> num_val t1 = Some x1 -> num_val t2 = Some x2 ->
  le_tier v t1 a t2 b = Ok (if xle x x1 then a else if xle x x2 then b else 0).
Proof.
  intros Hv H1 H2. unfold le_tier, not_none_and, py_le.
  rewrite (num_val_not_none _ _ Hv), Hv, H1, H2. simpl.
  destruct (xle x x1); [reflexivity|]. simpl. by destruct (xle x x2).
Qed.

Lemma ge_tier_num v t1 a t2 b x x1 x2 :
  num_val v = Some x -> num_val t1 = Some x1 -> num_val t2 = Some x2 ->
  ge_tier v t1 a t2 b = Ok (if xle x1 x then a else if xle x2 x then b else 0).
Proof.
  intros Hv H1 H2. unfold ge_tier, py_ge.
  rewrite (num_val_or_zero _ _ Hv), H1, H2. simpl.
  destruct (xle x1 x); [reflexivity|]. simpl. by destruct (xle x2 x).
Qed.

Lemma lt_tier_none t1 a t2 b : lt_tier PyNone t1 a t2 b = Ok 0.
Proof. reflexivity. Qed.

Lemma le_tier_none t1 a t2 b : le_tier PyNone t1 a t2 b = Ok 0.
Proof. reflexivity. Qed.

(** A missing field of the [or 0] kind is scored as the number 0. *)
Lemma ge_tier_none t1 a t2 b : ge_tier PyNone t1 a t2 b = ge_tier (PyInt 0) t1 a t2 b.
Proof. reflexivity. Qed.

(** Each line adds one of its three amounts, and does so on every metric
    value. *)
Lemma lt_tier_total v t1 a t2 b x1 x2 :
  metric_value v = true -> num_val t1 = Some x1 -> num_val t2 = Some x2 ->
  exists p, lt_tier v t1 a t2 b = Ok p /\ (p = a \/ p = b \/ p = 0).
Proof.
  intros Hv H1 H2. destruct (metric_value_cases v Hv) as [->|[x Hx]].
  - exists 0. rewrite lt_tier_none. auto.
  - rewrite (lt_tier_num _ _ _ _ _ _ _ _ Hx H1 H2).
    destruct (xlt x x1); [|destruct (xlt x x2)]; eauto 6.
Qed.

Lemma le_tier_total v t1 a t2 b x1 x2 :
  metric_value v = true -> num_val t1 = Some x1 -> num_val t2 = Some x2 ->
  exists p, le_tier v t1 a t2 b = Ok p /\ (p = a \/ p = b \/ p = 0).
Proof.
  intros Hv H1 H2. destruct (metric_value_cases v Hv) as [->|[x Hx]].
  - exists 0. rewrite le_tier_none. auto.
  - rewrite (le_tier_num _ _ _ _ _ _ _ _ Hx H1 H2).
    destruct (xle x x1); [|destruct (xle x x2)]; eauto 6.
Qed.

Lemma ge_tier_total v t1 a t2 b x1 x2 :
  metric_value v = true -> num_val t1 = Some x1 -> num_val t2 = Some x2 ->
  exists p, ge_tier v t1 a t2 b = Ok p /\ (p = a \/ p = b \/ p = 0).
Proof.
  intros Hv H1 H2.
  assert (exists x, ge_tier v t1 a t2 b
                    = Ok (if xle x1 x then a else if xle x2 x then b else 0))
    as [x ->].
  { destruct (metric_value_cases v Hv) as [->|[x Hx]].
    - exists (XFin (inject_Z 0)). rewrite ge_tier_none.
      by apply ge_tier_num.
    - exists x. by apply ge_tier_num. }
  destruct (xle x1 x); [|destruct (xle x2 x)]; eauto 6.
Qed.

(** [score_sum] is its seven lines, one after the other. *)
Lemma score_sum_lines (m : dict) :
  score_sum m =
    (p1 ← lt_tier (dict_get m "pe_fwd") (PyInt 18) 20 (PyInt 25) 10;
     p2 ← le_tier (dict_get m "peg_fwd") (PyFloat f_1_0) 20 (PyFloat f_1_5) 10;
     p3 ← ge_tier (dict_get m "roic") (PyFloat f_0_12) 20 (PyFloat f_0_08) 10;
     p4 ← ge_tier (dict_get m "op_margin") (PyFloat f_0_15) 10 (PyFloat f_0_08) 5;
     p5 ← ge_tier (dict_get m "rev_yoy") (PyFloat f_0_20) 15 (PyFloat f_0_12) 8;
     p6 ← ge_tier (dict_get m "eps_yoy") (PyFloat f_0_20) 15 (PyFloat f_0_12) 8;
     p7 ← le_tier (dict_get m "de_ratio") (PyFloat f_0_5) 10 (PyFloat f_1_0) 5;
     Ok (0 + p1 + p2 + p3 + p4 + p5 + p6 + p7)).
Proof. reflexivity. Qed.

Lemma metrics_record_fields (m : dict) :
  metrics_record m = true ->
  metric_value (dict_get m "pe_fwd") = true /\
  metric_value (dict_get m "peg_fwd") = true /\
  metric_value (dict_get m "roic") = true /\
  metric_value (dict_get m "op_margin") = true /\
  metric_value (dict_get m "rev_yoy") = true /\
  metric_value (dict_get m "eps_yoy") = true /\
  metric_value (dict_get m "de_ratio") = true.
Proof.
  unfold metrics_record, scored_keys. simpl.
  rewrite !andb_true_iff. tauto.
Qed.

(** On a metrics record every line succeeds, within its weight. *)
Lemma score_sum_record (m : dict) :
  metrics_record m = true ->
  exists p1 p2 p3 p4 p5 p6 p7,
    score_sum m = Ok (0 + p1 + p2 + p3 + p4 + p5 + p6 + p7) /\
    (0 <= p1 <= 20) /\ (0 <= p2 <= 20) /\ (0 <= p3 <= 20) /\ (0 <= p4 <= 10) /\
    (0 <= p5 <= 15) /\ (0 <= p6 <= 15) /\ (0 <= p7 <= 10).
Proof.
  intros Hm. apply metrics_record_fields in Hm as (H1&H2&H3&H4&H5&H6&H7).
  rewrite score_sum_lines.
  destruct (lt_tier_total _ (PyInt 18) 20 (PyInt 25) 10 _ _ H1 eq_refl eq_refl)
    as (p1&->&?).
  destruct (le_tier_total _ (PyFloat f_1_0) 20 (PyFloat f_1_5) 10 _ _ H2 eq_refl eq_refl)
    as (p2&->&?).
  destruct (ge_tier_total _ (PyFloat f_0_12) 20 (PyFloat f_0_08) 10 _ _ H3 eq_refl eq_refl)
    as (p3&->&?).
  destruct (ge_tier_total _ (PyFloat f_0_15) 10 (PyFloat f_0_08) 5 _ _ H4 eq_refl eq_refl)
    as (p4&->&?).
  destruct (ge_tier_total _ (PyFloat f_0_20) 15 (PyFloat f_0_12) 8 _ _ H5 eq_refl eq_refl)
    as (p5&->&?).
  destruct (ge_tier_total _ (PyFloat f_0_20) 15 (PyFloat f_0_12) 8 _ _ H6 eq_refl eq_refl)
    as (p6&->&?).
  destruct (le_tier_total _ (PyFloat f_0_5) 10 (PyFloat f_1_0) 5 _ _ H7 eq_refl eq_refl)
    as (p7&->&?).
  exists p1, p2, p3, p4, p5, p6, p7.
  split; [reflexivity|]. lia.
Qed.

(** ** Reading a dictionary *)

Lemma dict_get_insert_eq (m : dict) (k : string) (v : pyval) :
  dict_get (<[k := v]> m) k = v.
Proof. unfold dict_get. by rewrite lookup_insert_eq. Qed.

Lemma dict_get_insert_ne (m : dict) (k k' : string) (v : pyval) :
  k ≠ k' -> dict_get (<[k := v]> m) k' = dict_get m k'.
Proof. intros. unfold dict_get. by rewrite lookup_insert_ne. Qed.

Ltac simpl_get :=
  rewrite ?dict_get_insert_eq in *;
  repeat (rewrite dict_get_insert_ne in * by discriminate).

Ltac split_elem H :=
  apply list_elem_of_In in H; simpl in H;
  repeat (destruct H as [<-|H]); [..|destruct H].

(** ** Monotonicity of a line *)

Lemma num_le_vals (a b : pyval) :
  num_le a b = true ->
  exists x y, num_val a = Some x /\ num_val b = Some y /\ xle x y = true.
Proof.
  unfold num_le. destruct (num_val a), (num_val b); try discriminate. eauto.
Qed.

Lemma lt_tier_mono old new t1 a t2 b x1 x2 :
  num_le new old = true -> num_val t1 = Some x1 -> num_val t2 = Some x2 ->
  0 <= b <= a ->
  exists p p', lt_tier old t1 a t2 b = Ok p /\ lt_tier new t1 a t2 b = Ok p' /\
               p <= p'.
Proof.
  intros Hle H1 H2 Hab. apply num_le_vals in Hle as (x'&x&Hn&Ho&Hle).
  rewrite (lt_tier_num _ _ _ _ _ _ _ _ Ho H1 H2),
          (lt_tier_num _ _ _ _ _ _ _ _ Hn H1 H2).
  eexists _, _. split; [reflexivity|]. split; [reflexivity|].
  destruct (xlt x x1) eqn:E1.
  { by rewrite (xle_xlt_trans _ _ _ Hle E1). }
  destruct (xlt x x2) eqn:E2.
  { rewrite (xle_xlt_trans _ _ _ Hle E2). destruct (xlt x' x1); lia. }
  destruct (xlt x' x1), (xlt x' x2); lia.
Qed.

Lemma le_tier_mono old new t1 a t2 b x1 x2 :
  num_le new old = true -> num_val t1 = Some x1 -> num_val t2 = Some x2 ->
  0 <= b <= a ->
  exists p p', le_tier old t1 a t2 b = Ok p /\ le_tier new t1 a t2 b = Ok p' /\
               p <= p'.
Proof.
  intros Hle H1 H2 Hab. apply num_le_vals in Hle as (x'&x&Hn&Ho&Hle).
  rewrite (le_tier_num _ _ _ _ _ _ _ _ Ho H1 H2),
          (le_tier_num _ _ _ _ _ _ _ _ Hn H1 H2).
  eexists _, _. split; [reflexivity|]. split; [reflexivity|].
  destruct (xle x x1) eqn:E1.
  { by rewrite (xle_trans _ _ _ Hle E1). }
  destruct (xle x x2) eqn:E2.
  { rewrite (xle_trans _ _ _ Hle E2). destruct (xle x' x1); lia. }
  destruct (xle x' x1), (xle x' x2); lia.
Qed.

Lemma ge_tier_mono old new t1 a t2 b x1 x2 :
  num_le old new = true -> num_val t1 = Some x1 -> num_val t2 = Some x2 ->
  0 <= b <= a ->
  exists p p', ge_tier old t1 a t2 b = Ok p /\ ge_tier new t1 a t2 b = Ok p' /\
               p <= p'.
Proof.
  intros Hle H1 H2 Hab. apply num_le_vals in Hle as (x&x'&Ho&Hn&Hle).
  rewrite (ge_tier_num _ _ _ _ _ _ _ _ Ho H1 H2),
          (ge_tier_num _ _ _ _ _ _ _ _ Hn H1 H2).
  eexists _, _. split; [reflexivity|]. split; [reflexivity|].
  destruct (xle x1 x) eqn:E1.
  { by rewrite (xle_trans _ _ _ E1 Hle). }
  destruct (xle x2 x) eqn:E2.
  { rewrite (xle_trans _ _ _ E2 Hle). destruct (xle x1 x'); lia. }
  destruct (xle x1 x'), (xle x2 x'); lia.
Qed.

(** ** Meeting a threshold *)

Lemma py_lt_true v t x1 :
  py_lt v t = Ok true -> num_val t = Some x1 ->
  exists x, num_val v = Some x /\ xlt x x1 = true.
Proof.
  unfold py_lt. intros H Ht. rewrite Ht in H.
  destruct (num_val v) as [x|] eqn:Hv.
  - exists x. split; [reflexivity|]. congruence.
  - destruct v, t; simpl in *; discriminate.
Qed.

Lemma py_le_true v t x1 :
  py_le v t = Ok true -> num_val t = Some x1 ->
  exists x, num_val v = Some x /\ xle x x1 = true.
Proof.
  unfold py_le. intros H Ht. rewrite Ht in H.
  destruct (num_val v) as [x|] eqn:Hv.
  - exists x. split; [reflexivity|]. congruence.
  - destruct v, t; simpl in *; discriminate.
Qed.

Lemma py_ge_true v t x1 :
  py_ge v t = Ok true -> num_val t = Some x1 ->
  exists x, num_val v = Some x /\ xle x1 x = true.
Proof.
  unfold py_ge. intros H Ht. rewrite Ht in H.
  destruct (num_val v) as [x|] eqn:Hv.
  - exists x. split; [reflexivity|]. congruence.
  - destruct v, t; simpl in *; discriminate.
Qed.

Lemma lt_tier_best v t1 a t2 b x1 x2 :
  py_lt v t1 = Ok true -> num_val t1 = Some x1 -> num_val t2 = Some x2 ->
  lt_tier v t1 a t2 b = Ok a.
Proof.
  intros H H1 H2. destruct (py_lt_true _ _ _ H H1) as (x&Hx&Hlt).
  by rewrite (lt_tier_num _ _ _ _ _ _ _ _ Hx H1 H2), Hlt.
Qed.

Lemma le_tier_best v t1 a t2 b x1 x2 :
  py_le v t1 = Ok true -> num_val t1 = Some x1 -> num_val t2 = Some x2 ->
  le_tier v t1 a t2 b = Ok a.
Proof.
  intros H H1 H2. destruct (py_le_true _ _ _ H H1) as (x&Hx&Hle).
  by rewrite (le_tier_num _ _ _ _ _ _ _ _ Hx H1 H2), Hle.
Qed.

Lemma ge_tier_best v t1 a t2 b x1 x2 :
  py_ge v t1 = Ok true -> num_val t1 = Some x1 -> num_val t2 = Some x2 ->
  ge_tier v t1 a t2 b = Ok a.
Proof.
  intros H H1 H2. destruct (py_ge_true _ _ _ H H1) as (x&Hx&Hle).
  by rewrite (ge_tier_num _ _ _ _ _ _ _ _ Hx H1 H2), Hle.
Qed.

(** ** The star rating *)

Lemma stars_from_score_cases (s : Z) :
  0 <= s ->
  stars_from_score s =
    Some (if (80 <=? s)%Z then (5, "★★★★★")
          else if (60 <=? s)%Z then (4, "★★★★☆")
          else if (40 <=? s)%Z then (3, "★★★☆☆")
          else if (20 <=? s)%Z then (2, "★★☆☆☆")
          else (1, "★☆☆☆☆")).
Proof.
  intros Hs. unfold stars_from_score, star_table, stars_loop.
  repeat (case_match; [reflexivity|]).
  lia.
Qed.

Lemma stars_from_score_range (s : Z) :
  0 <= s ->
  exists n g, stars_from_score s = Some (n, g) /\ 1 <= n <= 5 /\
              py_len g = 5%nat /\
              g = str_mul "★" n +:+ str_mul "☆" (5 - n).
Proof.
  intros Hs. rewrite (stars_from_score_cases s Hs).
  repeat case_match; eexists _, _;
    (split; [reflexivity|]); (split; [lia|]); split; reflexivity.
Qed.

(** ** Tactics for the seven lines *)

(** Replace a line over a field known to hold a metric value by its
    amount. *)
Ltac settle_line :=
  match goal with
  | H : metric_value ?v = true |- context [lt_tier ?v ?t1 ?a ?t2 ?b] =>
      let p := fresh "p" in
      let Hp := fresh "Hp" in
      destruct (lt_tier_total v t1 a t2 b _ _ H eq_refl eq_refl) as (p & Hp & _);
      rewrite !Hp; clear Hp
  | H : metric_value ?v = true |- context [le_tier ?v ?t1 ?a ?t2 ?b] =>
      let p := fresh "p" in
      let Hp := fresh "Hp" in
      destruct (le_tier_total v t1 a t2 b _ _ H eq_refl eq_refl) as (p & Hp & _);
      rewrite !Hp; clear Hp
  | H : metric_value ?v = true |- context [ge_tier ?v ?t1 ?a ?t2 ?b] =>
      let p := fresh "p" in
      let Hp := fresh "Hp" in
      destruct (ge_tier_total v t1 a t2 b _ _ H eq_refl eq_refl) as (p & Hp & _);
      rewrite !Hp; clear Hp
  end.

(** Replace the line of the field that moved by its two amounts. *)
Ltac settle_moved old new Hle :=
  let p := fresh "p" in
  let p' := fresh "p'" in
  let Ho := fresh "Ho" in
  let Hn := fresh "Hn" in
  let Hpp := fresh "Hpp" in
  match goal with
  | |- context [lt_tier old ?t1 ?a ?t2 ?b] =>
      destruct (lt_tier_mono old new t1 a t2 b _ _ Hle eq_refl eq_refl
                  ltac:(lia)) as (p & p' & Ho & Hn & Hpp)
  | |- context [le_tier old ?t1 ?a ?t2 ?b] =>
      destruct (le_tier_mono old new t1 a t2 b _ _ Hle eq_refl eq_refl
                  ltac:(lia)) as (p & p' & Ho & Hn & Hpp)
  | |- context [ge_tier old ?t1 ?a ?t2 ?b] =>
      destruct (ge_tier_mono old new t1 a t2 b _ _ Hle eq_refl eq_refl
                  ltac:(lia)) as (p & p' & Ho & Hn & Hpp)
  end;
  rewrite !Ho, !Hn; clear Ho Hn.

(** ** The claims about the scorer *)

(** C3, as the code has it. On every metrics record the seven
    contributions add up to a sum between 0 and 110 before the final clamp
    (the weights are 20, 20, 20, 10, 15, 15 and 10), and [score_company]
    returns the smaller of that sum and 100: the clamp leaves a sum of at
    most 100 unchanged and lowers a larger one to 100. *)
Theorem score_sum_within_110 (m : dict) :
  metrics_record m = true ->
  exists s, score_sum m = Ok s /\ 0 <= s <= 110 /\
            score_company m = Ok (Z.min 100 s) /\
            (s <= 100 -> score_company m = Ok s).
Proof.
  intros Hm. unfold score_company.
  destruct (score_sum_record m Hm) as (p1&p2&p3&p4&p5&p6&p7&->&Hb).
  eexists. split; [reflexivity|]. split; [lia|].
  simpl. split; [|intros Hs]; f_equal; lia.
Qed.

Lemma score_sum_within_110_witness :
  metrics_record best_metrics = true /\
  exists s, score_sum best_metrics = Ok s /\ 0 <= s <= 110 /\
            score_company best_metrics = Ok (Z.min 100 s) /\
            (s <= 100 -> score_company best_metrics = Ok s).
Proof.
  split; [reflexivity|].
  apply (score_sum_within_110 best_metrics). reflexivity.
Defined.

(** C3, as the spec words it, fails: a record whose every field meets its
    best threshold sums to 110 before the clamp, and the clamp changes that
    to 100. *)
Lemma score_sum_exceeds_100 :
  metrics_record best_metrics = true /\
  score_sum best_metrics = Ok 110 /\
  score_company best_metrics = Ok 100.
Proof. repeat split; reflexivity. Qed.

(** C6. When every scored field meets its best threshold (forward P/E < 18,
    forward PEG <= 1.0, ROIC >= 0.12, operating margin >= 0.15, revenue
    growth >= 0.20, EPS growth >= 0.20, D/E <= 0.5), [score_company]
    returns 100, and [stars_from_score] maps 100 to 5 stars with the glyph
    of five filled stars. *)
Theorem best_thresholds_score_100 (m : dict) :
  py_lt (dict_get m "pe_fwd") (PyInt 18) = Ok true ->
  py_le (dict_get m "peg_fwd") (PyFloat f_1_0) = Ok true ->
  py_ge (dict_get m "roic") (PyFloat f_0_12) = Ok true ->
  py_ge (dict_get m "op_margin") (PyFloat f_0_15) = Ok true ->
  py_ge (dict_get m "rev_yoy") (PyFloat f_0_20) = Ok true ->
  py_ge (dict_get m "eps_yoy") (PyFloat f_0_20) = Ok true ->
  py_le (dict_get m "de_ratio") (PyFloat f_0_5) = Ok true ->
  score_company m = Ok 100 /\
  stars_from_score 100 = Some (5, "★★★★★").
Proof.
  intros H1 H2 H3 H4 H5 H6 H7. split; [|reflexivity].
  unfold score_company. rewrite score_sum_lines.
  rewrite (lt_tier_best _ _ 20 (PyInt 25) 10 _ _ H1 eq_refl eq_refl).
  rewrite (le_tier_best _ _ 20 (PyFloat f_1_5) 10 _ _ H2 eq_refl eq_refl).
  rewrite (ge_tier_best _ _ 20 (PyFloat f_0_08) 10 _ _ H3 eq_refl eq_refl).
  rewrite (ge_tier_best _ _ 10 (PyFloat f_0_08) 5 _ _ H4 eq_refl eq_refl).
  rewrite (ge_tier_best _ _ 15 (PyFloat f_0_12) 8 _ _ H5 eq_refl eq_refl).
  rewrite (ge_tier_best _ _ 15 (PyFloat f_0_12) 8 _ _ H6 eq_refl eq_refl).
  rewrite (le_tier_best _ _ 10 (PyFloat f_1_0) 5 _ _ H7 eq_refl eq_refl).
  reflexivity.
Qed.

Lemma best_thresholds_score_100_witness :
  score_company best_metrics = Ok 100 /\
  stars_from_score 100 = Some (5, "★★★★★").
Proof.
  apply (best_thresholds_score_100 best_metrics); reflexivity.
Defined.

(** C7, as the code has it. When every scored field is absent,
    [score_company] returns 0, and [stars_from_score] maps 0 to 1 star; the
    glyph of 1 star is one filled star followed by four empty ones. *)
Theorem absent_fields_score_0 (m : dict) :
  (forall k, k ∈ scored_keys -> dict_get m k = PyNone) ->
  score_company m = Ok 0 /\
  stars_from_score 0 = Some (1, "★☆☆☆☆").
Proof.
  intros H. split; [|reflexivity].
  unfold score_company. rewrite score_sum_lines.
  rewrite !H by (apply list_elem_of_In; simpl; tauto).
  reflexivity.
Qed.

Lemma absent_fields_score_0_witness :
  (forall k, k ∈ scored_keys -> dict_get (∅ : dict) k = PyNone) /\
  score_company ∅ = Ok 0 /\
  stars_from_score 0 = Some (1, "★☆☆☆☆").
Proof.
  split; [intros k _; reflexivity|].
  apply (absent_fields_score_0 ∅). intros k _. reflexivity.
Defined.

(** C7, as the spec words it, fails: the record with no field at all scores
    0, and the glyph returned for 0 is not five empty stars. *)
Lemma absent_fields_glyph_not_all_empty :
  score_company ∅ = Ok 0 /\
  stars_from_score 0 <> Some (1, "☆☆☆☆☆").
Proof. split; [reflexivity|discriminate]. Qed.

(** C8. On a metrics record, moving one scored field in its improving
    direction (down for forward P/E, forward PEG and D/E; up for ROIC,
    operating margin, revenue growth and EPS growth) while every other
    field stays fixed never lowers the result of [score_company]. *)
Theorem score_company_monotone (m : dict) (k : string) (old new : pyval) :
  metrics_record (<[k := old]> m) = true ->
  improves k old new ->
  exists s_old s_new,
    score_company (<[k := old]> m) = Ok s_old /\
    score_company (<[k := new]> m) = Ok s_new /\
    s_old <= s_new.
Proof.
  intros Hrec Himp.
  apply metrics_record_fields in Hrec as (H1&H2&H3&H4&H5&H6&H7).
  unfold score_company. rewrite !score_sum_lines.
  destruct Himp as [[Hk Hle]|[Hk Hle]]; split_elem Hk; simpl_get;
    settle_moved old new Hle; repeat settle_line; simpl;
    (eexists _, _; split; [reflexivity|]; split; [reflexivity|]; lia).
Qed.

Lemma score_company_monotone_witness :
  exists s_old s_new,
    score_company (<["pe_fwd" := PyInt 30]> best_metrics) = Ok s_old /\
    score_company (<["pe_fwd" := PyInt 15]> best_metrics) = Ok s_new /\
    s_old <= s_new.
Proof.
  apply (score_company_monotone best_metrics "pe_fwd" (PyInt 30) (PyInt 15)).
  - reflexivity.
  - left. split; [|reflexivity]. apply list_elem_of_In. simpl. tauto.
Defined.

(** C9. On every metrics record the result of [score_company] lies in
    [0,100]; and for every score in that range [stars_from_score] returns a
    star count in [1,5] and a glyph of exactly 5 characters: that many
    filled stars followed by the rest as empty stars. *)
Theorem score_and_stars_bounded (m : dict) :
  metrics_record m = true ->
  (exists s, score_company m = Ok s /\ 0 <= s <= 100) /\
  (forall s, 0 <= s <= 100 ->
     exists n g, stars_from_score s = Some (n, g) /\ 1 <= n <= 5 /\
                 py_len g = 5%nat /\
                 g = str_mul "★" n +:+ str_mul "☆" (5 - n)).
Proof.
  intros Hm. split.
  - destruct (score_sum_record m Hm) as (p1&p2&p3&p4&p5&p6&p7&Hs&Hb).
    unfold score_company. rewrite Hs. simpl.
    eexists. split; [reflexivity|]. lia.
  - intros s [Hs _]. by apply stars_from_score_range.
Qed.

Lemma score_and_stars_bounded_witness :
  metrics_record best_metrics = true /\
  (exists s, score_company best_metrics = Ok s /\ 0 <= s <= 100) /\
  (forall s, 0 <= s <= 100 ->
     exists n g, stars_from_score s = Some (n, g) /\ 1 <= n <= 5 /\
                 py_len g = 5%nat /\
                 g = str_mul "★" n +:+ str_mul "☆" (5 - n)).
Proof.
  split; [reflexivity|].
  apply (score_and_stars_bounded best_metrics). reflexivity.
Defined.

(** C10. [score_company] reads only the seven keys [pe_fwd], [peg_fwd],
    [roic], [op_margin], [rev_yoy], [eps_yoy] and [de_ratio]: two
    dictionaries that agree on them get the same result, whatever else they
    hold ([gross_margin], the [pe] entry of the endpoint, ...). *)
Theorem score_company_reads_scored_keys (m1 m2 : dict) :
  (forall k, k ∈ scored_keys -> dict_get m1 k = dict_get m2 k) ->
  score_company m1 = score_company m2.
Proof.
  intros H. unfold score_company. rewrite !score_sum_lines.
  rewrite !H by (apply list_elem_of_In; simpl; tauto).
  reflexivity.
Qed.

Lemma score_company_reads_scored_keys_witness :
  score_company best_metrics =
  score_company (<["gross_margin" := PyFloat f_0_5]>
                   (<["pe" := PyInt 99]> best_metrics)).
Proof.
  apply (score_company_reads_scored_keys best_metrics).
  intros k Hk. split_elem Hk; reflexivity.
Defined.

(** ** The retry loop *)

Lemma io_bind_run {A B : Type} (c : io A) (f : A -> io B) (st : trace) :
  (c ≫= f) st
  = match c st with
    | (Ok a, st') => f a st'
    | (Raise e, st') => (Raise e, st')
    end.
Proof. reflexivity. Qed.

Section Retry.
Context (w : world) (ticker : string) (max_retries : Z) (base_sleep : Q).
Hypothesis base_nonneg : (0 <= base_sleep)%Q.

Lemma backoff_nonneg (a : Z) : Qltb (base_sleep * inject_Z (2 ^ a)) 0 = false.
Proof.
  destruct (Qltb _ 0) eqn:E; [|reflexivity].
  apply Qltb_lt in E. exfalso.
  apply (Qlt_not_le _ _ E). apply Qmult_le_0_compat; [done|].
  rewrite <- (Zle_Qle 0). apply Z.pow_nonneg. lia.
Qed.

Lemma backoff_ok_dec (a : Z) :
  backoff_ok base_sleep a \/ ~ backoff_ok base_sleep a.
Proof.
  unfold backoff_ok.
  destruct (Z.ltb_spec a 1024) as [Ha|Ha]; [|right; lia].
  destruct (sleep_fits (base_sleep * inject_Z (2 ^ a))); [by left|].
  right. intros [_ H]. discriminate.
Qed.

(** What the handler does with a transient failure that is not the last
    attempt of the budget: the backoff, then the rest of the loop. *)
Lemma retry_loop_handler a rest last st e :
  yahoo_get_info w ticker (calls st) = Raise e ->
  transient (str_exn e) = true ->
  a < max_retries - 1 ->
  retry_loop w ticker max_retries base_sleep (a :: rest) last st
  = (p ← lift (float_of_pow2 a);
     _ ← sleep (base_sleep * p);
     retry_loop w ticker max_retries base_sleep rest (Some e))
      (advance st 1 []).
Proof.
  intros He Ht Ha. cbn [retry_loop].
  rewrite (io_bind_run (try_ _)). unfold try_ at 1.
  rewrite io_bind_run. unfold get_info at 1. rewrite He.
  cbv beta iota zeta. rewrite Ht.
  replace (a <? max_retries - 1)%Z with true
    by (symmetry; apply Z.ltb_lt; lia).
  cbn [andb].
  replace ({| calls := S (calls st); sleeps := sleeps st;
              requests := requests st |}) with (advance st 1 [])
    by (unfold advance; simpl; by rewrite app_nil_r).
  reflexivity.
Qed.

Lemma retry_loop_transient a rest last st e :
  yahoo_get_info w ticker (calls st) = Raise e ->
  transient (str_exn e) = true ->
  a < max_retries - 1 ->
  backoff_ok base_sleep a ->
  retry_loop w ticker max_retries base_sleep (a :: rest) last st
  = retry_loop w ticker max_retries base_sleep rest (Some e)
      (advance st 1 [(base_sleep * inject_Z (2 ^ a))%Q]).
Proof.
  intros He Ht Ha [Ha' Hfits]. rewrite (retry_loop_handler _ _ _ _ _ He Ht Ha).
  unfold mbind, io_bind, lift, float_of_pow2.
  replace (a <? 1024)%Z with true by (symmetry; apply Z.ltb_lt; lia).
  unfold sleep. rewrite Hfits, backoff_nonneg. cbv beta iota zeta.
  f_equal. unfold advance. simpl. by rewrite app_nil_r.
Qed.

(** When the backoff does not go through, an [OverflowError] leaves the
    handler, and with it the client; nothing is slept. *)
Lemma retry_loop_refused a rest last st e :
  yahoo_get_info w ticker (calls st) = Raise e ->
  transient (str_exn e) = true ->
  a < max_retries - 1 ->
  ~ backoff_ok base_sleep a ->
  exists msg,
    retry_loop w ticker max_retries base_sleep (a :: rest) last st
    = (Raise (PyExc "OverflowError" msg), advance st 1 []).
Proof.
  intros He Ht Ha Hno. rewrite (retry_loop_handler _ _ _ _ _ He Ht Ha).
  unfold mbind, io_bind, lift, float_of_pow2.
  destruct (Z.ltb_spec a 1024) as [Ha'|Ha']; [|eauto].
  unfold sleep.
  destruct (sleep_fits (base_sleep * inject_Z (2 ^ a))) eqn:Hfits; [|eauto].
  destruct Hno. by split.
Qed.

(** An attempt that fails without a transient signature, or as the last
    of the budget, leaves the loop by [break]. *)
Lemma retry_loop_break a rest last st e :
  yahoo_get_info w ticker (calls st) = Raise e ->
  (a <? max_retries - 1)%Z && transient (str_exn e) = false ->
  retry_loop w ticker max_retries base_sleep (a :: rest) last st
  = (Ok (Fell (Some e)), advance st 1 []).
Proof.
  intros He Hc. cbn [retry_loop].
  unfold mbind, io_bind, try_, get_info, mret, io_ret, raise.
  rewrite He. simpl. rewrite Hc.
  unfold advance. simpl. by rewrite app_nil_r.
Qed.

(** So does an attempt that returns an empty payload, wherever it comes
    in the budget. *)
Lemma retry_loop_empty a rest last st :
  yahoo_get_info w ticker (calls st) = Ok ∅ ->
  retry_loop w ticker max_retries base_sleep (a :: rest) last st
  = (Ok (Fell (Some (PyExc "ValueError" "Empty info payload"))),
     advance st 1 []).
Proof.
  intros He. cbn [retry_loop].
  unfold mbind, io_bind, try_, get_info, mret, io_ret, raise.
  rewrite He. simpl.
  destruct (a <? max_retries - 1)%Z; simpl;
    unfold advance; simpl; by rewrite app_nil_r.
Qed.

Lemma advance_advance st k sl k' sl' :
  advance (advance st k sl) k' sl' = advance st (k + k') (sl ++ sl').
Proof.
  unfold advance. simpl. f_equal; [lia|]. by rewrite app_assoc.
Qed.

(** A run of transient failures, none of them on the last attempt of the
    budget, is slept through when every backoff goes through: the loop goes
    on with what is left. *)
Lemma retry_loop_skip (pre rest : list Z) last st :
  Forall (fun a => a < max_retries - 1) pre ->
  Forall (backoff_ok base_sleep) pre ->
  (forall i, (i < length pre)%nat -> transient_failure w ticker st i) ->
  exists last',
    retry_loop w ticker max_retries base_sleep (pre ++ rest) last st
    = retry_loop w ticker max_retries base_sleep rest last'
        (advance st (length pre) (backoff base_sleep pre)).
Proof.
  revert last st. induction pre as [|a pre IH]; intros last st Hpre Hok Hfail.
  - exists last. simpl. f_equal. unfold advance, backoff. simpl.
    rewrite app_nil_r. by destruct st.
  - apply Forall_cons in Hpre as [Ha Hpre].
    apply Forall_cons in Hok as [Hoka Hok].
    destruct (Hfail 0%nat ltac:(simpl; lia)) as (e & He & Ht).
    simpl in He.
    cbn [app]. rewrite (retry_loop_transient _ _ _ _ _ He Ht Ha Hoka).
    destruct (IH (Some e) (advance st 1 [(base_sleep * inject_Z (2 ^ a))%Q])
                Hpre Hok) as [last' Hl].
    { intros i Hi. destruct (Hfail (S i) ltac:(simpl; lia)) as (e' & He' & Ht').
      exists e'. split; [|done]. simpl. rewrite <- He'. f_equal. lia. }
    exists last'. rewrite Hl. f_equal. rewrite advance_advance. reflexivity.
Qed.

Lemma seqZ_last_attempt :
  1 <= max_retries ->
  seqZ 0 max_retries = (seqZ 0 (max_retries - 1) ++ [max_retries - 1])%list.
Proof.
  intros H. replace max_retries with ((max_retries - 1) + 1) at 1 by lia.
  rewrite seqZ_app by lia. f_equal.
Qed.

Lemma seqZ_attempt_at (k : nat) :
  Z.of_nat k < max_retries ->
  seqZ 0 max_retries
  = (seqZ 0 (Z.of_nat k)
     ++ Z.of_nat k :: seqZ (Z.of_nat k + 1) (max_retries - Z.of_nat k - 1))%list.
Proof.
  intros H.
  replace max_retries with (Z.of_nat k + (max_retries - Z.of_nat k)) at 1 by lia.
  rewrite seqZ_app by lia. f_equal.
  rewrite seqZ_cons by lia. f_equal; lia.
Qed.

Lemma fetch_after_fall st l st' :
  retry_loop w ticker max_retries base_sleep (seqZ 0 max_retries) None st
  = (Ok (Fell l), st') ->
  fetch_yahoo_info_with_retry w ticker max_retries base_sleep st
  = (Raise (if rate_limited (str_last_err l)
            then HTTPException 429 "Yahoo blocked the request (rate/crumb)."
            else HTTPException 502
                   ("Yahoo request failed: " +:+ str_last_err l)),
     st').
Proof.
  intros H. unfold fetch_yahoo_info_with_retry.
  unfold mbind, io_bind. rewrite H.
  by destruct (rate_limited (str_last_err l)).
Qed.
End Retry.

Lemma seqZ_increasing (n : nat) (m : Z) :
  0 <= m -> StronglySorted (fun x y => 0 <= x < y) (seqZ m (Z.of_nat n)).
Proof.
  revert m. induction n as [|n IH]; intros m Hm.
  - rewrite seqZ_nil by lia. constructor.
  - rewrite seqZ_cons by lia.
    replace (Z.pred (Z.of_nat (S n))) with (Z.of_nat n) by lia.
    constructor; [apply IH; lia|].
    apply Forall_seqZ. intros k Hk. lia.
Qed.

(** With a positive base the sleeps grow strictly from one attempt to the
    next. *)
Lemma backoff_increasing (base_sleep : Q) (n : Z) :
  (0 < base_sleep)%Q -> StronglySorted Qlt (backoff base_sleep (seqZ 0 n)).
Proof.
  intros Hb. unfold backoff.
  apply StronglySorted_fmap with (R1 := fun x y => 0 <= x < y).
  - intros x y [Hx Hxy]. apply Qmult_lt_l; [done|].
    rewrite <- Zlt_Qlt. apply Z.pow_lt_mono_r; lia.
  - destruct (Z.le_gt_cases 0 n) as [Hn|Hn].
    + rewrite <- (Z2Nat.id n Hn). apply seqZ_increasing. lia.
    + rewrite seqZ_nil by lia. constructor.
Qed.

(** C4. When every attempt of the budget fails with a transient signature,
    and every backoff is one Python can compute and [time.sleep] takes, the
    client calls [get_info] exactly [max_retries] times, sleeps
    [base_sleep * 2 ** attempt] seconds between consecutive attempts (for
    attempts 0 to [max_retries - 2]; strictly increasing when the base is
    positive), and then raises 429 when the last error carries a
    rate-limit or blocking signature, 502 otherwise. *)
Theorem persistent_transient_failure (w : world) (ticker : string)
    (max_retries : Z) (base_sleep : Q) (st : trace) :
  1 <= max_retries ->
  (0 <= base_sleep)%Q ->
  (forall a, 0 <= a < max_retries - 1 -> backoff_ok base_sleep a) ->
  (forall i, (i < Z.to_nat max_retries)%nat -> transient_failure w ticker st i) ->
  exists e_last,
    yahoo_get_info w ticker (Z.to_nat (max_retries - 1) + calls st) = Raise e_last /\
    fetch_yahoo_info_with_retry w ticker max_retries base_sleep st
    = (Raise (if rate_limited (str_exn e_last)
              then HTTPException 429 "Yahoo blocked the request (rate/crumb)."
              else HTTPException 502
                     ("Yahoo request failed: " +:+ str_exn e_last)),
       advance st (Z.to_nat max_retries)
         (backoff base_sleep (seqZ 0 (max_retries - 1)))) /\
    ((0 < base_sleep)%Q ->
     StronglySorted Qlt (backoff base_sleep (seqZ 0 (max_retries - 1)))).
Proof.
  intros Hmr Hbs Hok Hfail.
  destruct (Hfail (Z.to_nat (max_retries - 1)) ltac:(lia)) as (e & He & Ht).
  exists e. split; [exact He|]. split; [|apply backoff_increasing].
  destruct (retry_loop_skip w ticker max_retries base_sleep Hbs
              (seqZ 0 (max_retries - 1)) [max_retries - 1] None st)
    as [last' Hskip].
  { apply Forall_seqZ. lia. }
  { apply Forall_seqZ. intros a Ha. apply Hok. lia. }
  { intros i Hi. rewrite length_seqZ in Hi. apply Hfail. lia. }
  rewrite length_seqZ in Hskip.
  rewrite (fetch_after_fall w ticker max_retries base_sleep st (Some e)
             (advance st (Z.to_nat max_retries)
                (backoff base_sleep (seqZ 0 (max_retries - 1))))); [done|].
  rewrite seqZ_last_attempt by done. rewrite Hskip.
  rewrite (retry_loop_break w ticker max_retries base_sleep _ _ _ _ e).
  - rewrite advance_advance, app_nil_r. do 2 f_equal. unfold advance. f_equal. lia.
  - exact He.
  - rewrite Z.ltb_irrefl. reflexivity.
Qed.

(** C1, on the code. In the scenario of the spec (Yahoo returns an empty
    payload twice, then answers) the client does not retry: the
    [ValueError] it raises for the empty payload reaches the handler of the
    retry loop, but its message carries no transient signature, so the loop
    ends after one call and no sleep, with 502.  The same world with a
    rate-limit error in place of the empty payload is retried and answers
    on the third call, after two sleeps. *)
Theorem empty_payload_ends_the_client :
  fetch_yahoo_info_with_retry empty_first_world "ACME"
    default_max_retries default_base_sleep start
  = (Raise (HTTPException 502 "Yahoo request failed: Empty info payload"),
     {| calls := 1; sleeps := []; requests := [] |}) /\
  fst (fetch_yahoo_info_with_retry recovering_world "ACME"
         default_max_retries default_base_sleep start) = Ok acme_info /\
  calls (snd (fetch_yahoo_info_with_retry recovering_world "ACME"
                default_max_retries default_base_sleep start)) = 3%nat /\
  length (sleeps (snd (fetch_yahoo_info_with_retry recovering_world "ACME"
                         default_max_retries default_base_sleep start))) = 2%nat.
Proof. repeat split; reflexivity. Qed.

(** ** The fallback client and the endpoint *)

Lemma fmp_get_no_key w path params st :
  key_set (FMP_KEY w) = None ->
  fmp_get w path params st
  = (Raise (HTTPException 503 "FMP API key not set. Set FMP_API_KEY env var."), st).
Proof. intros H. unfold fmp_get. by rewrite H. Qed.

Lemma fmp_get_fst w path st :
  fst (fmp_get w path None st) = fmp_outcome w path.
Proof.
  unfold fmp_outcome, fmp_get. by destruct (key_set (FMP_KEY w)).
Qed.

(** Without a key the profile request raises 503 inside the [try] of
    [fetch_fmp_info], whose handler turns every exception into a 502. *)
Lemma fetch_fmp_info_no_key w ticker st :
  key_set (FMP_KEY w) = None ->
  fetch_fmp_info w ticker st
  = (Raise (HTTPException 502
       "FMP profile error: 503: FMP API key not set. Set FMP_API_KEY env var."),
     st).
Proof.
  intros H. unfold fetch_fmp_info, mbind, io_bind, try_.
  rewrite (fmp_get_no_key _ _ _ _ H). reflexivity.
Qed.

Lemma get_company_no_key w ticker st sc d st' :
  key_set (FMP_KEY w) = None ->
  fetch_yahoo_info_with_retry w ticker default_max_retries default_base_sleep st
  = (Raise (HTTPException sc d), st') ->
  get_company w ticker st
  = (Raise (HTTPException 502
       "FMP profile error: 503: FMP API key not set. Set FMP_API_KEY env var."),
     st').
Proof.
  intros Hk Hy. unfold get_company, mbind, io_bind, try_.
  rewrite Hy. rewrite (fetch_fmp_info_no_key _ _ _ Hk). reflexivity.
Qed.

Lemma try_fmp_get w path st :
  try_ (x ← fmp_get w path None; mret (first_record x)) st
  = (Ok (match fmp_outcome w path with
         | Ok x => Ok (first_record x)
         | Raise e => Raise e
         end),
     fmp_after w path st).
Proof.
  unfold try_, fmp_after. rewrite io_bind_run.
  rewrite <- (fmp_get_fst w path st).
  destruct (fmp_get w path None st) as [[x|e] st']; reflexivity.
Qed.

(** C2, on the code. Yahoo is rate-limited on every attempt and no FMP key
    is set: [fmp_get] raises 503, but the endpoint answers 502, because the
    [except Exception] around the profile request catches the 503 and
    raises 502 in its place.  No request is sent to FMP. *)
Theorem missing_key_surfaces_as_502 :
  fst (fmp_get blocked_world "/profile/ACME" None start)
  = Raise (HTTPException 503 "FMP API key not set. Set FMP_API_KEY env var.") /\
  fst (fetch_yahoo_info_with_retry blocked_world "ACME"
         default_max_retries default_base_sleep start)
  = Raise (HTTPException 429 "Yahoo blocked the request (rate/crumb).") /\
  fst (get_company blocked_world "ACME" start)
  = Raise (HTTPException 502
      "FMP profile error: 503: FMP API key not set. Set FMP_API_KEY env var.") /\
  requests (snd (get_company blocked_world "ACME" start)) = [].
Proof. repeat split; reflexivity. Qed.

(** C5. In [fetch_fmp_info] a failed profile sub-request fails the whole
    fetch with 502.  When the profile sub-request succeeds the fetch
    succeeds, with the name, price, market cap and identifier of the
    profile; if the ratios (or the growth) sub-request failed, the entries
    it would have filled are [None]. *)
Theorem fallback_partial_failure (w : world) (ticker : string) (st : trace) :
  let profile := fmp_outcome w ("/profile/" +:+ ticker) in
  let ratios := fmp_outcome w ("/ratios-ttm/" +:+ ticker) in
  let growth := fmp_outcome w ("/financial-growth/" +:+ ticker) in
  (forall e, profile = Raise e ->
     fst (fetch_fmp_info w ticker st)
     = Raise (HTTPException 502 ("FMP profile error: " +:+ str_exn e))) /\
  (forall p, profile = Ok p ->
     exists info : dict,
       fst (fetch_fmp_info w ticker st) = Ok info /\
       info !! "longName"
       = Some (py_or (dict_get (first_record p) "companyName")
                     (dict_get (first_record p) "symbol")) /\
       info !! "currentPrice" = Some (dict_get (first_record p) "price") /\
       info !! "marketCap" = Some (dict_get (first_record p) "mktCap") /\
       info !! "cik" = Some (dict_get (first_record p) "cik") /\
       (forall e, ratios = Raise e ->
          Forall (fun k => info !! k = Some PyNone) ratio_fields) /\
       (forall e, growth = Raise e ->
          Forall (fun k => info !! k = Some PyNone) growth_fields)).
Proof.
  intros profile ratios growth. subst profile ratios growth.
  unfold fetch_fmp_info.
  rewrite io_bind_run, try_fmp_get.
  split.
  - intros e ->. reflexivity.
  - intros p ->. cbv beta iota.
    rewrite io_bind_run, try_fmp_get. cbv beta iota.
    rewrite io_bind_run, try_fmp_get. cbv beta iota.
    eexists. split; [reflexivity|].
    repeat (split; [reflexivity|]).
    split; intros e ->; repeat constructor.
Qed.

Lemma fallback_partial_failure_witness :
  fst (fetch_fmp_info profile_down_world "ACME" start)
  = Raise (HTTPException 502 "FMP profile error: 500 Server Error") /\
  exists info : dict,
    fst (fetch_fmp_info ratios_down_world "ACME" start) = Ok info /\
    info !! "longName" = Some (PyStr "Acme Corp") /\
    info !! "currentPrice" = Some (PyInt 50) /\
    info !! "marketCap" = Some (PyInt 1000000000) /\
    info !! "cik" = Some (PyStr "0000123456") /\
    Forall (fun k => info !! k = Some PyNone) ratio_fields /\
    info !! "revenueGrowth" = Some (PyFloat f_0_20).
Proof.
  split.
  - apply (proj1 (fallback_partial_failure profile_down_world "ACME" start)
             (PyExc "HTTPError" "500 Server Error")).
    reflexivity.
  - destruct (proj2 (fallback_partial_failure ratios_down_world "ACME" start)
                (JList [acme_profile]) eq_refl)
      as (info & Hinfo & Hname & Hprice & Hcap & Hcik & Hratios & _).
    exists info. split; [exact Hinfo|].
    split; [exact Hname|]. split; [exact Hprice|]. split; [exact Hcap|].
    split; [exact Hcik|].
    split; [exact (Hratios (PyExc "HTTPError" "500 Server Error") eq_refl)|].
    vm_compute in Hinfo. injection Hinfo as <-. reflexivity.
Defined.

(** ** The retry client on sample worlds *)

Lemma default_backoff_ok (a : Z) :
  0 <= a < default_max_retries - 1 -> backoff_ok default_base_sleep a.
Proof.
  unfold default_max_retries. intros Ha.
  assert (a = 0 \/ a = 1 \/ a = 2) as Hcases by lia.
  destruct Hcases as [-> | [-> | ->]]; (split; [lia|reflexivity]).
Qed.

Lemma persistent_transient_failure_witness :
  exists e_last,
    yahoo_get_info blocked_world "ACME" (Z.to_nat (4 - 1) + calls start)
    = Raise e_last /\
    fetch_yahoo_info_with_retry blocked_world "ACME" 4 1.5 start
    = (Raise (if rate_limited (str_exn e_last)
              then HTTPException 429 "Yahoo blocked the request (rate/crumb)."
              else HTTPException 502
                     ("Yahoo request failed: " +:+ str_exn e_last)),
       advance start (Z.to_nat 4) (backoff 1.5 (seqZ 0 (4 - 1)))) /\
    ((0 < 1.5)%Q -> StronglySorted Qlt (backoff 1.5 (seqZ 0 (4 - 1)))).
Proof.
  apply (persistent_transient_failure blocked_world "ACME" 4 1.5 start).
  - lia.
  - discriminate.
  - intros a Ha.
    assert (a = 0 \/ a = 1 \/ a = 2) as Hcases by lia.
    destruct Hcases as [-> | [-> | ->]]; (split; [lia|reflexivity]).
  - intros i _. eexists. split; reflexivity.
Defined.

(** With the defaults: four calls, sleeps of 1.5, 3 and 6 seconds, then 429
    on a rate-limit signature and 502 on a timeout. *)
Lemma default_backoff :
  Forall2 Qeq (backoff default_base_sleep (seqZ 0 (default_max_retries - 1)))
    [1.5; 3; 6]%Q.
Proof. repeat constructor. Qed.

Lemma blocked_world_run :
  fst (fetch_yahoo_info_with_retry blocked_world "ACME"
         default_max_retries default_base_sleep start)
  = Raise (HTTPException 429 "Yahoo blocked the request (rate/crumb).") /\
  calls (snd (fetch_yahoo_info_with_retry blocked_world "ACME"
                default_max_retries default_base_sleep start)) = 4%nat.
Proof. split; reflexivity. Qed.

Lemma slow_world_run :
  fst (fetch_yahoo_info_with_retry slow_world "ACME"
         default_max_retries default_base_sleep start)
  = Raise (HTTPException 502 "Yahoo request failed: Read timed out.") /\
  calls (snd (fetch_yahoo_info_with_retry slow_world "ACME"
                default_max_retries default_base_sleep start)) = 4%nat.
Proof. split; reflexivity. Qed.

(** Outside those bounds the backoff itself fails.  A base of 1e10 seconds
    is more than [time.sleep] takes: the first backoff raises, after one
    call.  And [2 ** 1024] is no float, whatever the base. *)
Lemma oversized_backoff_raises :
  fetch_yahoo_info_with_retry blocked_world "ACME" 2 10000000000 start
  = (Raise (PyExc "OverflowError"
              "timestamp too large to convert to C _PyTime_t"),
     {| calls := 1; sleeps := []; requests := [] |}) /\
  float_of_pow2 1024
  = Raise (PyExc "OverflowError" "int too large to convert to float") /\
  ~ backoff_ok 0 1024.
Proof.
  split; [reflexivity|]. split; [reflexivity|]. intros [H _]. lia.
Qed.

(** ** Every run of the retry loop *)

Lemma advance_0 (st : trace) : advance st 0 [] = st.
Proof. destruct st. unfold advance. simpl. by rewrite app_nil_r. Qed.

Lemma retry_loop_success w ticker max_retries base_sleep a rest last st info :
  yahoo_get_info w ticker (calls st) = Ok info ->
  info ≠ ∅ ->
  retry_loop w ticker max_retries base_sleep (a :: rest) last st
  = (Ok (Returned info), advance st 1 []).
Proof.
  intros He Hne. cbn [retry_loop].
  unfold mbind, io_bind, try_, get_info, mret, io_ret, raise.
  rewrite He. rewrite (bool_decide_eq_true_2 _ Hne).
  unfold advance. simpl. by rewrite app_nil_r.
Qed.

(** The loop over the attempts [a, a+1, ..., max_retries - 1] makes [k]
    calls, with one sleep between consecutive calls, and ends on the
    outcome of the last call, or on the backoff after it when that one
    does not go through. *)
Lemma retry_loop_run w ticker max_retries base_sleep (n : nat) :
  (0 <= base_sleep)%Q ->
  forall a last st,
    a + Z.of_nat n = max_retries ->
    exists (k : nat) (r : result loop_end),
      (k <= n)%nat /\ (n <> 0%nat -> k <> 0%nat) /\
      retry_loop w ticker max_retries base_sleep (seqZ a (Z.of_nat n)) last st
      = (r, advance st k (backoff base_sleep (seqZ a (Z.of_nat k - 1)))) /\
      match r with
      | Ok (Returned info) =>
          info ≠ ∅ /\
          exists j, k = S j /\ yahoo_get_info w ticker (j + calls st) = Ok info
      | Ok (Fell l') =>
          (n = 0%nat /\ l' = last) \/
          exists e j, l' = Some e /\ k = S j /\
                      attempt_fails w ticker (j + calls st) e /\
                      (transient (str_exn e) = true -> k = n)
      | Raise e' =>
          exists msg j, e' = PyExc "OverflowError" msg /\ k = S j /\
                        (k < n)%nat /\
                        ~ backoff_ok base_sleep (a + Z.of_nat j)
      end.
Proof.
  intros Hbs. induction n as [|n IH]; intros a last st Han.
  - exists 0%nat, (Ok (Fell last)). split; [lia|]. split; [done|].
    split; [|by left]. simpl. by rewrite advance_0.
  - rewrite seqZ_cons by lia.
    replace (Z.pred (Z.of_nat (S n))) with (Z.of_nat n) by lia.
    destruct (yahoo_get_info w ticker (calls st)) as [info|e] eqn:He.
    + destruct (decide (info = ∅)) as [->|Hne].
      * exists 1%nat, (Ok (Fell (Some (PyExc "ValueError" "Empty info payload")))).
        split; [lia|]. split; [done|].
        split; [by apply retry_loop_empty|].
        right. eexists _, 0%nat. split; [done|]. split; [done|].
        split; [right; done|]. discriminate.
      * exists 1%nat, (Ok (Returned info)).
        split; [lia|]. split; [done|].
        split; [by apply retry_loop_success|].
        split; [done|]. by exists 0%nat.
    + destruct ((a <? max_retries - 1)%Z && transient (str_exn e)) eqn:Hc.
      * apply andb_true_iff in Hc as [Ha Ht]. apply Z.ltb_lt in Ha.
        destruct (backoff_ok_dec base_sleep a) as [Hok|Hno].
        -- rewrite (retry_loop_transient w ticker max_retries base_sleep Hbs
                      _ _ _ _ _ He Ht Ha Hok).
           destruct (IH (Z.succ a) (Some e)
                       (advance st 1 [(base_sleep * inject_Z (2 ^ a))%Q])
                       ltac:(lia)) as (k & r & Hk & Hk0 & Hrun & Hr).
           assert (k <> 0%nat) as Hk1 by (apply Hk0; lia).
           exists (S k), r. split; [lia|]. split; [done|]. split.
           { rewrite Hrun, advance_advance. do 2 f_equal.
             replace (Z.of_nat (S k) - 1) with (Z.of_nat k) by lia.
             rewrite (seqZ_cons a (Z.of_nat k)) by lia.
             unfold backoff. simpl. do 3 f_equal; lia. }
           destruct r as [[info|l']|e'].
           { destruct Hr as (Hne & j & -> & Hj). split; [done|].
             exists (S j). split; [done|]. rewrite <- Hj. simpl. f_equal. lia. }
           { destruct Hr as [[Hn0 _]|(e' & j & -> & -> & Hf & Hlast)]; [lia|].
             right. exists e', (S j). split; [done|]. split; [done|]. split.
             - replace (S j + calls st)%nat
                 with (j + calls (advance st 1
                                    [(base_sleep * inject_Z (2 ^ a))%Q]))%nat
                 by (simpl; lia).
               exact Hf.
             - intros Ht'. f_equal. by apply Hlast. }
           { destruct Hr as (msg & j & -> & -> & Hlt & Hno).
             exists msg, (S j). split; [done|]. split; [done|].
             split; [lia|].
             replace (a + Z.of_nat (S j)) with (Z.succ a + Z.of_nat j) by lia.
             exact Hno. }
        -- destruct (retry_loop_refused w ticker max_retries base_sleep
                       a (seqZ (Z.succ a) (Z.of_nat n)) last st e He Ht Ha Hno)
             as [msg Hrun].
           exists 1%nat, (Raise (PyExc "OverflowError" msg)).
           split; [lia|]. split; [done|]. split; [exact Hrun|].
           exists msg, 0%nat. split; [done|]. split; [done|].
           split; [lia|]. by replace (a + Z.of_nat 0) with a by lia.
      * exists 1%nat, (Ok (Fell (Some e))).
        split; [lia|]. split; [done|].
        split; [by apply retry_loop_break|].
        right. exists e, 0%nat. split; [done|]. split; [done|].
        split; [by left|]. intros Ht. rewrite Ht, andb_true_r in Hc.
        apply Z.ltb_ge in Hc. f_equal. lia.
Qed.

(** The same for the whole budget. *)
Lemma retry_budget_run w ticker max_retries base_sleep st :
  (0 <= base_sleep)%Q ->
  exists (k : nat) (r : result loop_end),
    (k <= Z.to_nat max_retries)%nat /\ (1 <= max_retries -> k <> 0%nat) /\
    retry_loop w ticker max_retries base_sleep (seqZ 0 max_retries) None st
    = (r, advance st k (backoff base_sleep (seqZ 0 (Z.of_nat k - 1)))) /\
    match r with
    | Ok (Returned info) =>
        info ≠ ∅ /\
        exists j, k = S j /\ yahoo_get_info w ticker (j + calls st) = Ok info
    | Ok (Fell l') =>
        (max_retries <= 0 /\ l' = None) \/
        exists e j, l' = Some e /\ k = S j /\
                    attempt_fails w ticker (j + calls st) e /\
                    (transient (str_exn e) = true -> k = Z.to_nat max_retries)
    | Raise e' =>
        exists msg a, e' = PyExc "OverflowError" msg /\
                      0 <= a < max_retries - 1 /\
                      ~ backoff_ok base_sleep a
    end.
Proof.
  intros Hbs. destruct (Z.le_gt_cases max_retries 0) as [Hle|Hgt].
  - exists 0%nat, (Ok (Fell None)). split; [lia|]. split; [lia|].
    rewrite (seqZ_nil 0 max_retries) by done. simpl.
    rewrite advance_0. split; [done|]. by left.
  - destruct (retry_loop_run w ticker max_retries base_sleep
                (Z.to_nat max_retries) Hbs 0 None st ltac:(lia))
      as (k & r & Hk & Hk0 & Hrun & Hr).
    rewrite Z2Nat.id in Hrun by lia.
    exists k, r. split; [done|]. split; [intros _; apply Hk0; lia|].
    split; [done|].
    destruct r as [[info|l']|e']; [done| |].
    + destruct Hr as [[Hn0 _]|Hr]; [lia|]. by right.
    + destruct Hr as (msg & j & -> & -> & Hlt & Hno).
      exists msg, (Z.of_nat j). split; [done|]. split; [lia|]. exact Hno.
Qed.

Lemma fetch_after_return w ticker max_retries base_sleep st info st' :
  retry_loop w ticker max_retries base_sleep (seqZ 0 max_retries) None st
  = (Ok (Returned info), st') ->
  fetch_yahoo_info_with_retry w ticker max_retries base_sleep st = (Ok info, st').
Proof.
  intros H. unfold fetch_yahoo_info_with_retry.
  rewrite io_bind_run, H. reflexivity.
Qed.

Lemma fetch_after_raise w ticker max_retries base_sleep st e st' :
  retry_loop w ticker max_retries base_sleep (seqZ 0 max_retries) None st
  = (Raise e, st') ->
  fetch_yahoo_info_with_retry w ticker max_retries base_sleep st = (Raise e, st').
Proof.
  intros H. unfold fetch_yahoo_info_with_retry.
  rewrite io_bind_run, H. reflexivity.
Qed.

(** ** Further properties of the retry client *)

Lemma rate_limited_transient (msg : string) :
  rate_limited msg = true -> transient msg = true.
Proof.
  unfold rate_limited, transient, transient_signatures. simpl.
  destruct (str_in "429" msg), (str_in "Too Many Requests" msg),
    (str_in "Invalid Crumb" msg); simpl; congruence.
Qed.

Lemma not_transient_not_rate_limited (msg : string) :
  transient msg = false -> rate_limited msg = false.
Proof.
  intros H. destruct (rate_limited msg) eqn:E; [|done].
  apply rate_limited_transient in E. congruence.
Qed.

(** X1. Whatever Yahoo does, the client calls [get_info] at most
    [max_retries] times (at least once when the budget is positive), sleeps
    only between consecutive calls, [base_sleep * 2 ** i] seconds after call
    [i], and sends nothing to FMP. *)
Theorem fetch_yahoo_trace (w : world) (ticker : string) (max_retries : Z)
    (base_sleep : Q) (st : trace) :
  (0 <= base_sleep)%Q ->
  exists k : nat,
    (k <= Z.to_nat max_retries)%nat /\ (1 <= max_retries -> (1 <= k)%nat) /\
    snd (fetch_yahoo_info_with_retry w ticker max_retries base_sleep st)
    = advance st k (backoff base_sleep (seqZ 0 (Z.of_nat k - 1))).
Proof.
  intros Hbs.
  destruct (retry_budget_run w ticker max_retries base_sleep st Hbs)
    as (k & r & Hk & Hk0 & Hrun & _).
  exists k. split; [done|]. split; [intros H; specialize (Hk0 H); lia|].
  destruct r as [[info|l']|e'].
  - by rewrite (fetch_after_return _ _ _ _ _ _ _ Hrun).
  - by rewrite (fetch_after_fall _ _ _ _ _ _ _ Hrun).
  - by rewrite (fetch_after_raise _ _ _ _ _ _ _ Hrun).
Qed.

Lemma fetch_yahoo_trace_witness :
  exists k : nat,
    (k <= Z.to_nat 4)%nat /\ (1 <= 4 -> (1 <= k)%nat) /\
    snd (fetch_yahoo_info_with_retry recovering_world "ACME" 4 1.5 start)
    = advance start k (backoff 1.5 (seqZ 0 (Z.of_nat k - 1))).
Proof.
  apply (fetch_yahoo_trace recovering_world "ACME" 4 1.5 start). discriminate.
Defined.

(** X2. The client returns only a non-empty payload, the one of its last
    call of [get_info].  It raises an [HTTPException] with status 429 or
    502, and nothing else but the [OverflowError] of a backoff, between two
    attempts of the budget, that Python cannot compute or [time.sleep] does
    not take. *)
Theorem fetch_yahoo_outcomes (w : world) (ticker : string) (max_retries : Z)
    (base_sleep : Q) (st : trace) :
  (0 <= base_sleep)%Q ->
  match fetch_yahoo_info_with_retry w ticker max_retries base_sleep st with
  | (Ok info, st') =>
      info ≠ ∅ /\
      exists j, calls st' = S j /\ yahoo_get_info w ticker j = Ok info
  | (Raise (HTTPException status_code _), _) =>
      status_code = 429 \/ status_code = 502
  | (Raise (PyExc cls _), _) =>
      cls = "OverflowError" /\
      exists a, 0 <= a < max_retries - 1 /\ ~ backoff_ok base_sleep a
  end.
Proof.
  intros Hbs.
  destruct (retry_budget_run w ticker max_retries base_sleep st Hbs)
    as (k & r & Hk & Hk0 & Hrun & Hr).
  destruct r as [[info|l']|e'].
  - rewrite (fetch_after_return _ _ _ _ _ _ _ Hrun).
    destruct Hr as (Hne & j & -> & Hj). split; [done|].
    exists (j + calls st)%nat. split; [reflexivity|done].
  - rewrite (fetch_after_fall _ _ _ _ _ _ _ Hrun).
    destruct (rate_limited (str_last_err l')); auto.
  - rewrite (fetch_after_raise _ _ _ _ _ _ _ Hrun).
    destruct Hr as (msg & a & -> & Ha & Hno). split; [done|]. by exists a.
Qed.

Lemma fetch_yahoo_outcomes_witness :
  match fetch_yahoo_info_with_retry blocked_world "ACME" 2 10000000000 start with
  | (Ok info, st') =>
      info ≠ ∅ /\
      exists j, calls st' = S j /\
                yahoo_get_info blocked_world "ACME" j = Ok info
  | (Raise (HTTPException status_code _), _) =>
      status_code = 429 \/ status_code = 502
  | (Raise (PyExc cls _), _) =>
      cls = "OverflowError" /\
      exists a, 0 <= a < 2 - 1 /\ ~ backoff_ok 10000000000 a
  end.
Proof.
  apply (fetch_yahoo_outcomes blocked_world "ACME" 2 10000000000 start).
  discriminate.
Defined.

(** X3. A 429 is raised only once the budget is spent: [get_info] was
    called [max_retries] times and its last call failed with a rate-limit
    or blocking signature. *)
Theorem rate_limit_only_after_budget (w : world) (ticker : string)
    (max_retries : Z) (base_sleep : Q) (st : trace) (detail : string) :
  (0 <= base_sleep)%Q ->
  fst (fetch_yahoo_info_with_retry w ticker max_retries base_sleep st)
  = Raise (HTTPException 429 detail) ->
  1 <= max_retries /\
  calls (snd (fetch_yahoo_info_with_retry w ticker max_retries base_sleep st))
  = (Z.to_nat max_retries + calls st)%nat /\
  exists e,
    yahoo_get_info w ticker (Z.to_nat (max_retries - 1) + calls st) = Raise e /\
    rate_limited (str_exn e) = true.
Proof.
  intros Hbs.
  destruct (retry_budget_run w ticker max_retries base_sleep st Hbs)
    as (k & r & Hk & Hk0 & Hrun & Hl).
  destruct r as [[info|l']|e'];
    [| |rewrite (fetch_after_raise _ _ _ _ _ _ _ Hrun);
        destruct Hl as (msg & a & -> & _); discriminate].
  - rewrite (fetch_after_return _ _ _ _ _ _ _ Hrun). discriminate.
  - rewrite (fetch_after_fall _ _ _ _ _ _ _ Hrun). simpl.
    destruct (rate_limited (str_last_err l')) eqn:Hrl; [|discriminate].
    intros _.
    destruct Hl as [[_ ->]|(e & j & -> & -> & Hf & Hlast)]; [discriminate|].
    simpl in Hrl. specialize (Hlast (rate_limited_transient _ Hrl)).
    split; [lia|]. split; [by rewrite Hlast|].
    exists e. split; [|done].
    replace (Z.to_nat (max_retries - 1)) with j by lia.
    destruct Hf as [Hf|[_ ->]]; [done|discriminate].
Qed.

Lemma rate_limit_only_after_budget_witness :
  1 <= 4 /\
  calls (snd (fetch_yahoo_info_with_retry blocked_world "ACME" 4 1.5 start))
  = (Z.to_nat 4 + calls start)%nat /\
  exists e,
    yahoo_get_info blocked_world "ACME" (Z.to_nat (4 - 1) + calls start)
    = Raise e /\
    rate_limited (str_exn e) = true.
Proof.
  apply (rate_limit_only_after_budget blocked_world "ACME" 4 1.5 start
           "Yahoo blocked the request (rate/crumb).").
  - discriminate.
  - reflexivity.
Defined.

(** X4. Transient failures do not surface: when the first [k] attempts fail
    with a transient signature, the backoff after each of them goes through,
    and the next attempt, still within the budget, returns a non-empty
    payload, the client returns that payload after [k + 1] calls and the
    [k] sleeps between them. *)
Theorem transient_failures_then_payload (w : world) (ticker : string)
    (max_retries : Z) (base_sleep : Q) (st : trace) (k : nat) (info : dict) :
  Z.of_nat k < max_retries ->
  (0 <= base_sleep)%Q ->
  (forall a, 0 <= a < Z.of_nat k -> backoff_ok base_sleep a) ->
  (forall i, (i < k)%nat -> transient_failure w ticker st i) ->
  yahoo_get_info w ticker (k + calls st) = Ok info ->
  info ≠ ∅ ->
  fetch_yahoo_info_with_retry w ticker max_retries base_sleep st
  = (Ok info, advance st (S k) (backoff base_sleep (seqZ 0 (Z.of_nat k)))).
Proof.
  intros Hk Hbs Hok Hfail Hinfo Hne.
  destruct (retry_loop_skip w ticker max_retries base_sleep Hbs
              (seqZ 0 (Z.of_nat k))
              (Z.of_nat k :: seqZ (Z.of_nat k + 1) (max_retries - Z.of_nat k - 1))
              None st) as [last' Hskip].
  { apply Forall_seqZ. lia. }
  { apply Forall_seqZ. intros a Ha. apply Hok. lia. }
  { intros i Hi. rewrite length_seqZ in Hi. apply Hfail. lia. }
  rewrite length_seqZ, Nat2Z.id in Hskip.
  apply fetch_after_return.
  rewrite (seqZ_attempt_at max_retries k Hk), Hskip.
  rewrite (retry_loop_success _ _ _ _ _ _ _ _ info) by done.
  rewrite advance_advance, app_nil_r. do 2 f_equal. lia.
Qed.

Lemma transient_failures_then_payload_witness :
  fetch_yahoo_info_with_retry recovering_world "ACME" 4 1.5 start
  = (Ok acme_info, advance start 3 (backoff 1.5 (seqZ 0 (Z.of_nat 2)))).
Proof.
  apply (transient_failures_then_payload recovering_world "ACME" 4 1.5 start 2).
  - lia.
  - discriminate.
  - intros a Ha. assert (a = 0 \/ a = 1) as Hcases by lia.
    destruct Hcases as [-> | ->]; (split; [lia|reflexivity]).
  - intros i Hi. exists (PyExc "HTTPError" "429 Too Many Requests").
    destruct i as [|[|i]]; [split; reflexivity .. | lia].
  - reflexivity.
  - discriminate.
Defined.

(** X5. An error without a transient signature is not retried: after the
    transient failures before it, each followed by a backoff that goes
    through, the client stops at once, without a sleep, and raises 502 with
    the message of that error. *)
Theorem other_error_not_retried (w : world) (ticker : string)
    (max_retries : Z) (base_sleep : Q) (st : trace) (k : nat) (e : exn) :
  Z.of_nat k < max_retries ->
  (0 <= base_sleep)%Q ->
  (forall a, 0 <= a < Z.of_nat k -> backoff_ok base_sleep a) ->
  (forall i, (i < k)%nat -> transient_failure w ticker st i) ->
  yahoo_get_info w ticker (k + calls st) = Raise e ->
  transient (str_exn e) = false ->
  fetch_yahoo_info_with_retry w ticker max_retries base_sleep st
  = (Raise (HTTPException 502 ("Yahoo request failed: " +:+ str_exn e)),
     advance st (S k) (backoff base_sleep (seqZ 0 (Z.of_nat k)))).
Proof.
  intros Hk Hbs Hok Hfail He Ht.
  destruct (retry_loop_skip w ticker max_retries base_sleep Hbs
              (seqZ 0 (Z.of_nat k))
              (Z.of_nat k :: seqZ (Z.of_nat k + 1) (max_retries - Z.of_nat k - 1))
              None st) as [last' Hskip].
  { apply Forall_seqZ. lia. }
  { apply Forall_seqZ. intros a Ha. apply Hok. lia. }
  { intros i Hi. rewrite length_seqZ in Hi. apply Hfail. lia. }
  rewrite length_seqZ, Nat2Z.id in Hskip.
  rewrite (fetch_after_fall w ticker max_retries base_sleep st (Some e)
             (advance st (S k) (backoff base_sleep (seqZ 0 (Z.of_nat k))))).
  { simpl. by rewrite (not_transient_not_rate_limited _ Ht). }
  rewrite (seqZ_attempt_at max_retries k Hk), Hskip.
  rewrite (retry_loop_break w ticker max_retries base_sleep _ _ _ _ e).
  - rewrite advance_advance, app_nil_r. do 2 f_equal. lia.
  - exact He.
  - by rewrite Ht, andb_false_r.
Qed.

Lemma other_error_not_retried_witness :
  fetch_yahoo_info_with_retry broken_world "ACME" 4 1.5 start
  = (Raise (HTTPException 502 ("Yahoo request failed: "
                               +:+ str_exn (PyExc "KeyError" "quoteSummary"))),
     advance start 2 (backoff 1.5 (seqZ 0 (Z.of_nat 1)))).
Proof.
  apply (other_error_not_retried broken_world "ACME" 4 1.5 start 1).
  - lia.
  - discriminate.
  - intros a Ha. assert (a = 0) as -> by lia. split; [lia|reflexivity].
  - intros i Hi. exists (PyExc "HTTPError" "429 Too Many Requests").
    destruct i as [|i]; [split; reflexivity | lia].
  - reflexivity.
  - reflexivity.
Defined.

(** X6. With a budget of zero or less the loop body never runs: no call,
    no sleep, and the client raises 502 about a [last_err] that is still
    [None]. *)
Theorem empty_budget_fails (w : world) (ticker : string) (max_retries : Z)
    (base_sleep : Q) (st : trace) :
  max_retries <= 0 ->
  fetch_yahoo_info_with_retry w ticker max_retries base_sleep st
  = (Raise (HTTPException 502 "Yahoo request failed: None"), st).
Proof.
  intros H.
  rewrite (fetch_after_fall w ticker max_retries base_sleep st None st).
  - reflexivity.
  - by rewrite seqZ_nil.
Qed.

Lemma empty_budget_fails_witness :
  fetch_yahoo_info_with_retry recovering_world "ACME" 0 1.5 start
  = (Raise (HTTPException 502 "Yahoo request failed: None"), start).
Proof.
  apply (empty_budget_fails recovering_world "ACME" 0 1.5 start). lia.
Defined.

(** ** Substrings *)

(** [str_in] is containment as a contiguous substring, which is what
    Python's [in] is on strings. *)

Lemma prefix_spec (p s : string) :
  String.prefix p s = true <-> exists post, s = p +:+ post.
Proof.
  revert s. induction p as [|a p IH]; intros s.
  - split; [intros _; by exists s|intros _; by destruct s].
  - destruct s as [|b s]; simpl.
    + split; [discriminate|intros [post H]; discriminate].
    + destruct (Ascii.ascii_dec a b) as [->|Hab].
      * rewrite IH. split; intros [post H]; exists post.
        -- by rewrite H.
        -- by injection H.
      * split; [discriminate|]. intros [post H]. injection H as -> _. done.
Qed.

Lemma str_in_spec (pat s : string) :
  str_in pat s = true <-> exists pre post, s = pre +:+ pat +:+ post.
Proof.
  split.
  - induction s as [|c s IH]; cbn [str_in]; intros H.
    + rewrite orb_false_r in H. apply prefix_spec in H as [post ->].
      by exists "", post.
    + apply orb_true_iff in H as [H|H].
      * apply prefix_spec in H as [post ->]. by exists "", post.
      * destruct (IH H) as (pre & post & ->). by exists (String c pre), post.
  - intros (pre & post & ->). induction pre as [|c pre IH].
    + assert (String.prefix pat (pat +:+ post) = true) as H
        by (apply prefix_spec; eauto).
      change ("" +:+ pat +:+ post) with (pat +:+ post).
      destruct (pat +:+ post); cbn [str_in]; by rewrite H.
    + change (String c pre +:+ pat +:+ post)
        with (String c (pre +:+ pat +:+ post)).
      cbn [str_in]. rewrite IH. apply orb_true_r.
Qed.

(** ** Further properties of the scorer *)

Lemma ge_tier_falsy v t1 a t2 b :
  truthy v = false -> ge_tier v t1 a t2 b = ge_tier PyNone t1 a t2 b.
Proof. intros H. unfold ge_tier, py_or. by rewrite H. Qed.

(** X8. A NaN in a scored field earns nothing: the score is the one of the
    record with that field absent. *)
Theorem nan_scored_as_absent (m : dict) (k : string) :
  k ∈ scored_keys ->
  score_company (<[k := PyFloat S754_nan]> m) = score_company (<[k := PyNone]> m).
Proof.
  intros Hk. unfold score_company. rewrite !score_sum_lines.
  split_elem Hk; simpl_get; reflexivity.
Qed.

Lemma nan_scored_as_absent_witness :
  score_company (<["roic" := PyFloat S754_nan]> best_metrics)
  = score_company (<["roic" := PyNone]> best_metrics).
Proof.
  apply (nan_scored_as_absent best_metrics "roic").
  apply list_elem_of_In. simpl. tauto.
Defined.

(** X9. In the four fields read with [or 0] (ROIC, operating margin,
    revenue and EPS growth) every false value, such as 0, 0.0 or the empty
    string, is scored as an absent field. *)
Theorem false_value_scored_as_absent (m : dict) (k : string) (v : pyval) :
  k ∈ higher_is_better ->
  truthy v = false ->
  score_company (<[k := v]> m) = score_company (<[k := PyNone]> m).
Proof.
  intros Hk Hv. unfold score_company. rewrite !score_sum_lines.
  split_elem Hk; simpl_get;
    by rewrite (ge_tier_falsy v _ _ _ _ Hv).
Qed.

Lemma false_value_scored_as_absent_witness :
  score_company (<["rev_yoy" := PyStr ""]> best_metrics)
  = score_company (<["rev_yoy" := PyNone]> best_metrics).
Proof.
  apply (false_value_scored_as_absent best_metrics "rev_yoy" (PyStr "")).
  - apply list_elem_of_In. simpl. tauto.
  - reflexivity.
Defined.

Lemma lt_tier_cases v t1 a t2 b x1 x2 :
  num_val t1 = Some x1 -> num_val t2 = Some x2 ->
  (metric_value v = true /\ exists p, lt_tier v t1 a t2 b = Ok p) \/
  (metric_value v = false /\
   exists msg, lt_tier v t1 a t2 b = Raise (PyExc "TypeError" msg)).
Proof.
  intros H1 H2. destruct (metric_value v) eqn:Hv.
  - left. split; [done|].
    destruct (lt_tier_total v t1 a t2 b _ _ Hv H1 H2) as (p & Hp & _). eauto.
  - right. split; [done|]. destruct v; try discriminate.
    destruct t1; try discriminate; eexists; reflexivity.
Qed.

Lemma le_tier_cases v t1 a t2 b x1 x2 :
  num_val t1 = Some x1 -> num_val t2 = Some x2 ->
  (metric_value v = true /\ exists p, le_tier v t1 a t2 b = Ok p) \/
  (metric_value v = false /\
   exists msg, le_tier v t1 a t2 b = Raise (PyExc "TypeError" msg)).
Proof.
  intros H1 H2. destruct (metric_value v) eqn:Hv.
  - left. split; [done|].
    destruct (le_tier_total v t1 a t2 b _ _ Hv H1 H2) as (p & Hp & _). eauto.
  - right. split; [done|]. destruct v; try discriminate.
    destruct t1; try discriminate; eexists; reflexivity.
Qed.

Lemma ge_tier_cases v t1 a t2 b x1 x2 :
  num_val t1 = Some x1 -> num_val t2 = Some x2 ->
  (metric_value v || negb (truthy v) = true /\
   exists p, ge_tier v t1 a t2 b = Ok p) \/
  (metric_value v || negb (truthy v) = false /\
   exists msg, ge_tier v t1 a t2 b = Raise (PyExc "TypeError" msg)).
Proof.
  intros H1 H2. destruct (metric_value v || negb (truthy v)) eqn:Hv.
  - left. split; [done|]. apply orb_true_iff in Hv as [Hv|Hv].
    + destruct (ge_tier_total v t1 a t2 b _ _ Hv H1 H2) as (p & Hp & _). eauto.
    + apply negb_true_iff in Hv. rewrite (ge_tier_falsy _ _ _ _ _ Hv).
      destruct (ge_tier_total PyNone t1 a t2 b _ _ eq_refl H1 H2)
        as (p & Hp & _). eauto.
  - right. split; [done|]. apply orb_false_iff in Hv as [Hv Hf].
    apply negb_false_iff in Hf. destruct v; try discriminate.
    unfold ge_tier, py_or. rewrite Hf. cbv beta iota zeta. rewrite Hf.
    destruct t1; try discriminate; eexists; reflexivity.
Qed.

Lemma clamp_range (s : Z) : 0 <= Z.max 0 (Z.min 100 s) <= 100.
Proof. lia. Qed.

(** The seven lines go through exactly on the scorable dictionaries; the
    first line that does not raises a [TypeError]. *)
Lemma score_sum_cases (m : dict) :
  if scorable m
  then exists s, score_sum m = Ok s
  else exists msg, score_sum m = Raise (PyExc "TypeError" msg).
Proof.
  unfold scorable, lower_is_better, higher_is_better.
  rewrite score_sum_lines. cbn [forallb].
  destruct (lt_tier_cases (dict_get m "pe_fwd") (PyInt 18) 20 (PyInt 25) 10
              _ _ eq_refl eq_refl) as [[-> [p1 ->]]|[-> [msg ->]]];
    [|cbn; eauto].
  destruct (le_tier_cases (dict_get m "peg_fwd") (PyFloat f_1_0) 20
              (PyFloat f_1_5) 10 _ _ eq_refl eq_refl)
    as [[-> [p2 ->]]|[-> [msg ->]]]; [|cbn; eauto].
  destruct (ge_tier_cases (dict_get m "roic") (PyFloat f_0_12) 20
              (PyFloat f_0_08) 10 _ _ eq_refl eq_refl)
    as [[-> [p3 ->]]|[-> [msg ->]]];
    [|rewrite ?andb_false_r; cbn; eauto].
  destruct (ge_tier_cases (dict_get m "op_margin") (PyFloat f_0_15) 10
              (PyFloat f_0_08) 5 _ _ eq_refl eq_refl)
    as [[-> [p4 ->]]|[-> [msg ->]]];
    [|rewrite ?andb_false_r; cbn; eauto].
  destruct (ge_tier_cases (dict_get m "rev_yoy") (PyFloat f_0_20) 15
              (PyFloat f_0_12) 8 _ _ eq_refl eq_refl)
    as [[-> [p5 ->]]|[-> [msg ->]]];
    [|rewrite ?andb_false_r; cbn; eauto].
  destruct (ge_tier_cases (dict_get m "eps_yoy") (PyFloat f_0_20) 15
              (PyFloat f_0_12) 8 _ _ eq_refl eq_refl)
    as [[-> [p6 ->]]|[-> [msg ->]]];
    [|rewrite ?andb_false_r; cbn; eauto].
  destruct (le_tier_cases (dict_get m "de_ratio") (PyFloat f_0_5) 10
              (PyFloat f_1_0) 5 _ _ eq_refl eq_refl)
    as [[-> [p7 ->]]|[-> [msg ->]]]; [|cbn; eauto].
  cbn. eexists. reflexivity.
Qed.

(** X10. [score_company] fails only with a [TypeError], and exactly when a
    scored field holds a string it cannot compare: any string in forward
    P/E, forward PEG or D/E, a non-empty string in the other four.
    Otherwise it returns a score in [0,100]. *)
Theorem score_company_type_error (m : dict) :
  if scorable m
  then exists s, score_company m = Ok s /\ 0 <= s <= 100
  else exists msg, score_company m = Raise (PyExc "TypeError" msg).
Proof.
  unfold score_company. pose proof (score_sum_cases m) as H.
  destruct (scorable m).
  - destruct H as [s ->]. cbn. eexists. split; [reflexivity|apply clamp_range].
  - destruct H as [msg ->]. by exists msg.
Qed.

Lemma score_company_ok_range (m : dict) (s : Z) :
  score_company m = Ok s -> 0 <= s <= 100.
Proof.
  unfold score_company. destruct (score_sum m) as [x|e]; [|discriminate].
  cbn. intros [= <-]. apply clamp_range.
Qed.

Lemma score_company_raises (m : dict) (e : exn) :
  score_company m = Raise e -> exists msg, e = PyExc "TypeError" msg.
Proof.
  unfold score_company. pose proof (score_sum_cases m) as H.
  destruct (scorable m).
  - destruct H as [s ->]. discriminate.
  - destruct H as [msg ->]. cbn. intros [= <-]. by exists msg.
Qed.


Lemma ge_tier_none_zero t1 a t2 b x1 x2 :
  num_val t1 = Some x1 -> num_val t2 = Some x2 ->
  xle x1 (XFin 0) = false -> xle x2 (XFin 0) = false ->
  ge_tier PyNone t1 a t2 b = Ok 0.
Proof.
  intros H1 H2 Hx1 Hx2. rewrite ge_tier_none.
  rewrite (ge_tier_num (PyInt 0) t1 a t2 b (XFin 0) x1 x2 eq_refl H1 H2).
  by rewrite Hx1, Hx2.
Qed.

(** Replace the line of an absent field by 0, and the line of the value
    that takes its place by its amount, which is not negative. *)
Ltac settle_filled v Hv :=
  let p := fresh "p" in
  let Hp := fresh "Hp" in
  let Hrange := fresh "Hrange" in
  match goal with
  | |- context [lt_tier v ?t1 ?a ?t2 ?b] =>
      destruct (lt_tier_total v t1 a t2 b _ _ Hv eq_refl eq_refl)
        as (p & Hp & Hrange);
      rewrite Hp, (lt_tier_none t1 a t2 b)
  | |- context [le_tier v ?t1 ?a ?t2 ?b] =>
      destruct (le_tier_total v t1 a t2 b _ _ Hv eq_refl eq_refl)
        as (p & Hp & Hrange);
      rewrite Hp, (le_tier_none t1 a t2 b)
  | |- context [ge_tier v ?t1 ?a ?t2 ?b] =>
      destruct (ge_tier_total v t1 a t2 b _ _ Hv eq_refl eq_refl)
        as (p & Hp & Hrange);
      rewrite Hp,
        (ge_tier_none_zero t1 a t2 b _ _ eq_refl eq_refl eq_refl eq_refl)
  end.

(** X24. A missing metric is never better than a present one: on a metrics
    record, putting any value in place of an absent scored field does not
    lower the score. *)
Theorem absent_field_scores_least (m : dict) (k : string) (v : pyval) :
  k ∈ scored_keys ->
  metrics_record (<[k := v]> m) = true ->
  exists s_absent s_present,
    score_company (<[k := PyNone]> m) = Ok s_absent /\
    score_company (<[k := v]> m) = Ok s_present /\
    s_absent <= s_present.
Proof.
  intros Hk Hrec.
  apply metrics_record_fields in Hrec as (H1&H2&H3&H4&H5&H6&H7).
  unfold score_company. rewrite !score_sum_lines.
  split_elem Hk; simpl_get;
    match goal with Hv : metric_value v = true |- _ => settle_filled v Hv end;
    repeat settle_line; simpl;
    (eexists _, _; split; [reflexivity|]; split; [reflexivity|]; lia).
Qed.

Lemma absent_field_scores_least_witness :
  exists s_absent s_present,
    score_company (<["de_ratio" := PyNone]> best_metrics) = Ok s_absent /\
    score_company (<["de_ratio" := PyInt 3]> best_metrics) = Ok s_present /\
    s_absent <= s_present.
Proof.
  apply (absent_field_scores_least best_metrics "de_ratio" (PyInt 3)).
  - apply list_elem_of_In. simpl. tauto.
  - reflexivity.
Defined.

(** ** Further properties of the star rating *)

(** X11. For a score of 0 or more the star count is one more than the
    number of whole twenties in the score, capped at 5. *)
Theorem stars_closed_form (s : Z) :
  0 <= s ->
  exists g, stars_from_score s = Some (Z.min 5 (s / 20 + 1), g).
Proof.
  intros Hs. rewrite (stars_from_score_cases s Hs).
  destruct (Z.leb_spec 80 s); [|destruct (Z.leb_spec 60 s);
    [|destruct (Z.leb_spec 40 s); [|destruct (Z.leb_spec 20 s)]]];
    eexists; do 2 f_equal.
  - assert (4 <= s / 20) by (apply Z.div_le_lower_bound; lia). lia.
  - assert (s / 20 = 3) as -> by (symmetry; apply (Z.div_unique s 20 3 (s - 60)); lia).
    reflexivity.
  - assert (s / 20 = 2) as -> by (symmetry; apply (Z.div_unique s 20 2 (s - 40)); lia).
    reflexivity.
  - assert (s / 20 = 1) as -> by (symmetry; apply (Z.div_unique s 20 1 (s - 20)); lia).
    reflexivity.
  - assert (s / 20 = 0) as -> by (apply Z.div_small; lia).
    reflexivity.
Qed.

Lemma stars_closed_form_witness :
  exists g, stars_from_score 79 = Some (Z.min 5 (79 / 20 + 1), g).
Proof. apply (stars_closed_form 79). lia. Defined.

(** X12. A higher score never gets fewer stars. *)
Theorem stars_monotone (s1 s2 : Z) :
  0 <= s1 -> s1 <= s2 ->
  exists n1 g1 n2 g2,
    stars_from_score s1 = Some (n1, g1) /\
    stars_from_score s2 = Some (n2, g2) /\
    n1 <= n2.
Proof.
  intros H1 H12.
  rewrite (stars_from_score_cases s1 H1),
          (stars_from_score_cases s2 ltac:(lia)).
  destruct (Z.leb_spec 80 s1), (Z.leb_spec 60 s1), (Z.leb_spec 40 s1),
    (Z.leb_spec 20 s1), (Z.leb_spec 80 s2), (Z.leb_spec 60 s2),
    (Z.leb_spec 40 s2), (Z.leb_spec 20 s2);
    try lia;
    (eexists _, _, _, _; split; [reflexivity|]; split; [reflexivity|]; lia).
Qed.

Lemma stars_monotone_witness :
  exists n1 g1 n2 g2,
    stars_from_score 39 = Some (n1, g1) /\
    stars_from_score 40 = Some (n2, g2) /\
    n1 <= n2.
Proof. apply (stars_monotone 39 40); lia. Defined.

(** X13. [stars_from_score] runs off its table, returning [None], exactly
    on a negative score. *)
Theorem stars_none_iff_negative (s : Z) :
  stars_from_score s = None <-> s < 0.
Proof.
  split.
  - intros H. destruct (Z.lt_ge_cases s 0) as [|Hs]; [done|].
    rewrite (stars_from_score_cases s Hs) in H. discriminate.
  - intros Hs. unfold stars_from_score, star_table, stars_loop.
    repeat (case_match; [lia|]). reflexivity.
Qed.

(** ** From [info] to the score *)

Lemma build_metrics_scored (info : dict) :
  dict_get (build_metrics info) "pe_fwd" = dict_get info "forwardPE" /\
  dict_get (build_metrics info) "peg_fwd" = dict_get info "pegRatio" /\
  dict_get (build_metrics info) "roic"
  = py_or (py_or (dict_get info "returnOnCapitalEmployed")
                 (dict_get info "returnOnInvestedCapitalTTM"))
          (dict_get info "returnOnEquity") /\
  dict_get (build_metrics info) "op_margin" = dict_get info "operatingMargins" /\
  dict_get (build_metrics info) "rev_yoy" = dict_get info "revenueGrowth" /\
  dict_get (build_metrics info) "eps_yoy" = dict_get info "earningsGrowth" /\
  dict_get (build_metrics info) "de_ratio" = dict_get info "debtToEquity".
Proof. unfold build_metrics. repeat split; by simpl_get. Qed.

(** X14. The score of the endpoint depends on nine entries of the
    provider's payload only: two payloads that agree on forward P/E, PEG,
    operating margin, revenue growth, earnings growth, the three return
    ratios and debt to equity get the same score. *)
Theorem score_reads_scored_info (info1 info2 : dict) :
  (forall k, k ∈ scored_info_keys -> dict_get info1 k = dict_get info2 k) ->
  score_company (build_metrics info1) = score_company (build_metrics info2).
Proof.
  intros H. unfold score_company. rewrite !score_sum_lines.
  destruct (build_metrics_scored info1) as (->&->&->&->&->&->&->).
  destruct (build_metrics_scored info2) as (->&->&->&->&->&->&->).
  rewrite !H by (apply list_elem_of_In; simpl; tauto).
  reflexivity.
Qed.

Lemma score_reads_scored_info_witness :
  score_company (build_metrics acme_info)
  = score_company (build_metrics (<["grossMargins" := PyNone]>
                                    (<["longName" := PyNone]> acme_info))).
Proof.
  apply (score_reads_scored_info acme_info).
  intros k Hk. split_elem Hk; reflexivity.
Defined.

(** ** Further properties of the fallback client *)

Lemma fmp_get_key w path st key :
  key_set (FMP_KEY w) = Some key ->
  fmp_get w path None st
  = (http_get_json w (FMP_BASE +:+ path) (<["apikey" := key]> ∅),
     {| calls := calls st; sleeps := sleeps st;
        requests := requests st ++ [FMP_BASE +:+ path] |}).
Proof. intros H. unfold fmp_get. rewrite H. reflexivity. Qed.

(** X15. [fetch_fmp_info] raises nothing but a 502, and does so exactly
    when its profile sub-request fails.  Otherwise it returns a dictionary
    with the same thirteen keys whatever FMP answered, among them
    [pegRatio], which is always [None]. *)
Theorem fetch_fmp_info_outcomes (w : world) (ticker : string) (st : trace) :
  match fst (fetch_fmp_info w ticker st) with
  | Ok info =>
      dom info = fmp_info_keys /\ info !! "pegRatio" = Some PyNone /\
      exists p, fmp_outcome w ("/profile/" +:+ ticker) = Ok p
  | Raise e =>
      exists e', fmp_outcome w ("/profile/" +:+ ticker) = Raise e' /\
                 e = HTTPException 502 ("FMP profile error: " +:+ str_exn e')
  end.
Proof.
  unfold fetch_fmp_info. rewrite io_bind_run, try_fmp_get.
  destruct (fmp_outcome w ("/profile/" +:+ ticker)) as [p|e']; cbv beta iota.
  - rewrite io_bind_run, try_fmp_get. cbv beta iota.
    rewrite io_bind_run, try_fmp_get. cbv beta iota.
    cbn [fst mret io_ret].
    split; [|split; [reflexivity|by exists p]].
    unfold fmp_info_keys. rewrite !dom_insert_L, dom_empty_L.
    cbn [list_to_set foldr]. set_solver.
  - exists e'. split; reflexivity.
Qed.

(** X16. With a key configured, each sub-request is one GET of
    [FMP_BASE] + its path with the key as the only parameter, [apikey].
    The profile is requested first; if it fails nothing else is sent,
    otherwise the ratios and then the growth request follow, whatever the
    ratios request does.  The client neither calls Yahoo nor sleeps. *)
Theorem fallback_requests (w : world) (ticker : string) (st : trace)
    (key : string) :
  key_set (FMP_KEY w) = Some key ->
  (forall path,
     fmp_outcome w path
     = http_get_json w (FMP_BASE +:+ path) (<["apikey" := key]> ∅)) /\
  requests (snd (fetch_fmp_info w ticker st))
  = (requests st ++
     match fmp_outcome w ("/profile/" +:+ ticker) with
     | Ok _ => [FMP_BASE +:+ ("/profile/" +:+ ticker);
                FMP_BASE +:+ ("/ratios-ttm/" +:+ ticker);
                FMP_BASE +:+ ("/financial-growth/" +:+ ticker)]
     | Raise _ => [FMP_BASE +:+ ("/profile/" +:+ ticker)]
     end)%list /\
  calls (snd (fetch_fmp_info w ticker st)) = calls st /\
  sleeps (snd (fetch_fmp_info w ticker st)) = sleeps st.
Proof.
  intros Hkey.
  assert (forall path st',
            fmp_after w path st'
            = {| calls := calls st'; sleeps := sleeps st';
                 requests := requests st' ++ [FMP_BASE +:+ path] |}) as Hafter.
  { intros path st'. unfold fmp_after. by rewrite (fmp_get_key _ _ _ _ Hkey). }
  split.
  { intros path. unfold fmp_outcome. by rewrite (fmp_get_key _ _ _ _ Hkey). }
  unfold fetch_fmp_info. rewrite io_bind_run, try_fmp_get.
  destruct (fmp_outcome w ("/profile/" +:+ ticker)) as [p|e']; cbv beta iota.
  - rewrite io_bind_run, try_fmp_get. cbv beta iota.
    rewrite io_bind_run, try_fmp_get. cbv beta iota.
    cbn [snd mret io_ret]. rewrite !Hafter. cbn [calls sleeps requests].
    by rewrite <- !app_assoc.
  - cbn [snd]. rewrite Hafter. done.
Qed.

Lemma fallback_requests_witness :
  (forall path,
     fmp_outcome ratios_down_world path
     = http_get_json ratios_down_world (FMP_BASE +:+ path)
         (<["apikey" := "k"]> ∅)) /\
  requests (snd (fetch_fmp_info ratios_down_world "ACME" start))
  = (requests start ++
     match fmp_outcome ratios_down_world ("/profile/" +:+ "ACME") with
     | Ok _ => [FMP_BASE +:+ ("/profile/" +:+ "ACME");
                FMP_BASE +:+ ("/ratios-ttm/" +:+ "ACME");
                FMP_BASE +:+ ("/financial-growth/" +:+ "ACME")]
     | Raise _ => [FMP_BASE +:+ ("/profile/" +:+ "ACME")]
     end)%list /\
  calls (snd (fetch_fmp_info ratios_down_world "ACME" start)) = calls start /\
  sleeps (snd (fetch_fmp_info ratios_down_world "ACME" start)) = sleeps start.
Proof.
  apply (fallback_requests ratios_down_world "ACME" start "k"). reflexivity.
Defined.

(** ** The endpoint, step by step *)

Lemma default_base_sleep_nonneg : (0 <= default_base_sleep)%Q.
Proof. discriminate. Qed.

(** With the defaults of the endpoint every backoff goes through, so the
    client raises nothing but its [HTTPException]. *)
Lemma fetch_yahoo_raises_http w ticker st e :
  fst (fetch_yahoo_info_with_retry w ticker
         default_max_retries default_base_sleep st) = Raise e ->
  exists status_code detail, e = HTTPException status_code detail.
Proof.
  destruct (retry_budget_run w ticker default_max_retries default_base_sleep
              st default_base_sleep_nonneg) as (k & r & _ & _ & Hrun & Hr).
  destruct r as [[info|l']|e'].
  - rewrite (fetch_after_return _ _ _ _ _ _ _ Hrun). discriminate.
  - rewrite (fetch_after_fall _ _ _ _ _ _ _ Hrun). cbn [fst].
    destruct (rate_limited (str_last_err l')); intros [= <-]; eauto.
  - destruct Hr as (msg & a & _ & Ha & Hno).
    destruct Hno. by apply default_backoff_ok.
Qed.

Lemma fetch_yahoo_requests w ticker max_retries base_sleep st :
  (0 <= base_sleep)%Q ->
  requests (snd (fetch_yahoo_info_with_retry w ticker max_retries base_sleep st))
  = requests st.
Proof.
  intros Hbs.
  destruct (retry_budget_run w ticker max_retries base_sleep st Hbs)
    as (k & r & _ & _ & Hrun & _).
  destruct r as [[info|l']|e'].
  - by rewrite (fetch_after_return _ _ _ _ _ _ _ Hrun).
  - by rewrite (fetch_after_fall _ _ _ _ _ _ _ Hrun).
  - by rewrite (fetch_after_raise _ _ _ _ _ _ _ Hrun).
Qed.

Lemma fetch_fmp_info_cases w ticker st :
  (exists e', fst (fetch_fmp_info w ticker st)
              = Raise (HTTPException 502 ("FMP profile error: " +:+ str_exn e'))) \/
  (exists info, fst (fetch_fmp_info w ticker st) = Ok info /\
                dict_get info "pegRatio" = PyNone /\
                dict_get info "PE" = PyNone /\
                dict_get info "returnOnInvestedCapitalTTM" = PyNone).
Proof.
  unfold fetch_fmp_info. rewrite io_bind_run, try_fmp_get.
  destruct (fmp_outcome w ("/profile/" +:+ ticker)) as [p|e']; cbv beta iota.
  - right. rewrite io_bind_run, try_fmp_get. cbv beta iota.
    rewrite io_bind_run, try_fmp_get. cbv beta iota.
    eexists. split; [reflexivity|]. repeat split; reflexivity.
  - left. by exists e'.
Qed.

Lemma get_company_steps w ticker st :
  get_company w ticker st
  = match fetch_yahoo_info_with_retry w ticker
            default_max_retries default_base_sleep st with
    | (Ok info, st1) =>
        let price := py_or (dict_get info "currentPrice")
                           (dict_get info "regularMarketPrice") in
        (respond w ticker false info
           (py_or (py_or (dict_get info "longName") (dict_get info "shortName"))
                  (PyStr (upper ticker)))
           (if is_not_none price then price
            else match yahoo_last_price w ticker with
                 | Ok p => p
                 | Raise _ => PyNone
                 end)
           (dict_get info "marketCap"),
         st1)
    | (Raise (HTTPException _ _), st1) =>
        match fetch_fmp_info w ticker st1 with
        | (Ok info, st2) =>
            (respond w ticker true info
               (py_or (dict_get info "longName") (PyStr (upper ticker)))
               (dict_get info "currentPrice") (dict_get info "marketCap"),
             st2)
        | (Raise e, st2) => (Raise e, st2)
        end
    | (Raise (PyExc cls msg), st1) => (Raise (PyExc cls msg), st1)
    end.
Proof.
  unfold get_company. rewrite io_bind_run. unfold try_.
  destruct (fetch_yahoo_info_with_retry w ticker default_max_retries
              default_base_sleep st) as [[info|[sc d|cls msg]] st1];
    cbv beta iota zeta.
  - rewrite io_bind_run. cbn [mret io_ret]. cbv beta iota zeta.
    unfold respond, lift. rewrite io_bind_run.
    destruct (score_company (build_metrics info)) as [s|e];
      unfold mbind, result_bind; cbv beta iota; [|done].
    by destruct (stars_from_score s) as [[n g]|].
  - rewrite !io_bind_run.
    destruct (fetch_fmp_info w ticker st1) as [[info|e] st2];
      cbv beta iota zeta; [|done].
    cbn [mret io_ret]. cbv beta iota zeta.
    unfold respond, lift. rewrite io_bind_run.
    destruct (score_company (build_metrics info)) as [s|e];
      unfold mbind, result_bind; cbv beta iota; [|done].
    by destruct (stars_from_score s) as [[n g]|].
  - rewrite io_bind_run. reflexivity.
Qed.

(** What [Snapshot(...)] accepts, it keeps: a name as it is, a price and
    a market cap as they are or as the float they are read as. *)
Lemma str_or_none_inv (v x : pyval) : str_or_none v = Some x -> x = v.
Proof. destruct v; simpl; congruence. Qed.

Lemma new_Snapshot_ok w tk nm pr mc m c n g f nt snap :
  new_Snapshot w tk nm pr mc m c n g f nt = Ok snap ->
  snap.(ticker) = tk /\ snap.(name) = nm /\
  float_or_none w pr = Some snap.(price) /\
  float_or_none w mc = Some snap.(market_cap) /\
  snap.(metrics) = m /\ snap.(composite_score) = c /\ snap.(stars) = n /\
  snap.(stars_text) = g /\ snap.(filings) = f /\ snap.(notes) = nt.
Proof.
  unfold new_Snapshot.
  destruct (str_or_none nm) as [nm'|] eqn:Hn; [|discriminate].
  apply str_or_none_inv in Hn as ->.
  destruct (float_or_none w pr) as [pr'|]; [|destruct (float_or_none w mc); discriminate].
  destruct (float_or_none w mc) as [mc'|]; [|discriminate].
  intros [= <-]. by cbn.
Qed.

Lemma new_Snapshot_raises w tk nm pr mc m c n g f nt e :
  new_Snapshot w tk nm pr mc m c n g f nt = Raise e ->
  exists msg, e = PyExc "ValidationError" msg.
Proof.
  unfold new_Snapshot.
  destruct (str_or_none nm), (float_or_none w pr), (float_or_none w mc);
    try discriminate; intros [= <-]; eauto.
Qed.

Lemma respond_ok w sym use_fmp info nm pr mc snap :
  respond w sym use_fmp info nm pr mc = Ok snap ->
  score_company (build_metrics info) = Ok snap.(composite_score) /\
  stars_from_score snap.(composite_score)
  = Some (snap.(stars), snap.(stars_text)) /\
  snap.(ticker) = upper sym /\ snap.(name) = nm /\
  float_or_none w pr = Some snap.(price) /\
  float_or_none w mc = Some snap.(market_cap) /\
  snap.(metrics) = build_metrics info /\
  snap.(filings) = latest_filing w (dict_get info "cik") /\
  snap.(notes) = (if negb use_fmp then "Yahoo primary"
                  else "FMP fallback (Yahoo blocked/crumb/rate limit)")
                 +:+ ". Data cached 1h.".
Proof.
  unfold respond.
  destruct (score_company (build_metrics info)) as [s|e];
    unfold mbind, result_bind; cbv beta iota zeta; [|discriminate].
  destruct (stars_from_score s) as [[n g]|] eqn:Hs; [|discriminate].
  intros H. apply new_Snapshot_ok in H
    as (Htk & Hnm & Hpr & Hmc & Hm & Hc & Hn & Hg & Hf & Hnt).
  rewrite Hc, Hn, Hg. done.
Qed.

Lemma respond_raises w sym use_fmp info nm pr mc e :
  respond w sym use_fmp info nm pr mc = Raise e ->
  (exists msg, e = PyExc "TypeError" msg) \/
  (exists msg, e = PyExc "ValidationError" msg).
Proof.
  unfold respond.
  destruct (score_company (build_metrics info)) as [s|e0] eqn:Hs;
    unfold mbind, result_bind; cbv beta iota zeta.
  - destruct (stars_from_score s) as [[n g]|].
    + intros H. right. by apply new_Snapshot_raises in H.
    + intros [= <-]. left. eauto.
  - intros [= <-]. left. by apply (score_company_raises _ _ Hs).
Qed.

Lemma if_else_chain_range c1 a c2 b c p :
  if_else_chain c1 a c2 b c = Ok p -> p = a \/ p = b \/ p = c.
Proof.
  unfold if_else_chain, mbind, result_bind.
  destruct c1 as [[|]|]; [intros [= <-]; auto| |discriminate].
  destruct c2 as [[|]|]; [intros [= <-]; auto|intros [= <-]; auto|discriminate].
Qed.

Lemma bind_ok_inv {A B : Type} (r : result A) (f : A -> result B) (y : B) :
  r ≫= f = Ok y -> exists x, r = Ok x /\ f x = Ok y.
Proof. destruct r as [x|e]; [by exists x|discriminate]. Qed.

(** Without a forward PEG the other six lines add up to 90 at most. *)
Lemma score_without_peg (m : dict) (s : Z) :
  dict_get m "peg_fwd" = PyNone -> score_company m = Ok s -> s <= 90.
Proof.
  intros Hpeg. unfold score_company. rewrite score_sum_lines, Hpeg.
  intros H.
  apply bind_ok_inv in H as (x & H & Hx).
  apply bind_ok_inv in H as (p1 & H1 & H).
  apply bind_ok_inv in H as (p2 & H2 & H).
  apply bind_ok_inv in H as (p3 & H3 & H).
  apply bind_ok_inv in H as (p4 & H4 & H).
  apply bind_ok_inv in H as (p5 & H5 & H).
  apply bind_ok_inv in H as (p6 & H6 & H).
  apply bind_ok_inv in H as (p7 & H7 & H).
  injection H as <-. injection Hx as <-. injection H2 as <-.
  apply if_else_chain_range in H1, H3, H4, H5, H6, H7. lia.
Qed.

Lemma truthy_py_or_r (a b : pyval) :
  truthy b = true -> truthy (py_or a b) = true.
Proof. intros H. unfold py_or. by destruct (truthy a) eqn:E. Qed.

(** ** Properties of the endpoint *)

(** X17. The endpoint fails in three ways only: with the 502 of a failed
    FMP profile request, with the [TypeError] of a string in a scored
    field, or with the [ValidationError] of a name, price or market cap
    that the response model rejects.  A 429 or a 503 never reaches the
    caller. *)
Theorem get_company_failures (w : world) (ticker : string) (st : trace)
    (e : exn) :
  fst (get_company w ticker st) = Raise e ->
  (exists e', e = HTTPException 502 ("FMP profile error: " +:+ str_exn e')) \/
  (exists msg, e = PyExc "TypeError" msg) \/
  (exists msg, e = PyExc "ValidationError" msg).
Proof.
  rewrite get_company_steps.
  pose proof (fetch_yahoo_raises_http w ticker st) as Hy.
  destruct (fetch_yahoo_info_with_retry w ticker default_max_retries
              default_base_sleep st) as [[info|[sc d|cls msg]] st1].
  - cbn [fst]. intros H. right. by apply respond_raises in H.
  - pose proof (fetch_fmp_info_cases w ticker st1) as Hf.
    destruct (fetch_fmp_info w ticker st1) as [[info|e0] st2]; cbn [fst] in *.
    + intros H. right. by apply respond_raises in H.
    + intros [= <-]. left.
      destruct Hf as [[e' [= ->]]|(info & [=] & _)]. by exists e'.
  - destruct (Hy (PyExc cls msg) eq_refl) as (sc & d & [=]).
Qed.

Lemma get_company_failures_witness :
  fst (get_company profile_down_world "ACME" start)
  = Raise (HTTPException 502 "FMP profile error: 500 Server Error") /\
  ((exists e', HTTPException 502 "FMP profile error: 500 Server Error"
               = HTTPException 502 ("FMP profile error: " +:+ str_exn e')) \/
   (exists msg, HTTPException 502 "FMP profile error: 500 Server Error"
                = PyExc "TypeError" msg) \/
   (exists msg, HTTPException 502 "FMP profile error: 500 Server Error"
                = PyExc "ValidationError" msg)).
Proof.
  split; [reflexivity|].
  apply (get_company_failures profile_down_world "ACME" start). reflexivity.
Defined.

(** X18. Every snapshot the endpoint returns is consistent: its score is
    the score of its metrics and lies in [0,100], its stars and glyph are
    those of that score, with 1 to 5 stars and 5 characters, and its ticker
    is the requested one in upper case. *)
Theorem snapshot_consistent (w : world) (sym : string) (st : trace)
    (snap : Snapshot) :
  fst (get_company w sym st) = Ok snap ->
  score_company snap.(metrics) = Ok snap.(composite_score) /\
  0 <= snap.(composite_score) <= 100 /\
  stars_from_score snap.(composite_score)
  = Some (snap.(stars), snap.(stars_text)) /\
  1 <= snap.(stars) <= 5 /\
  py_len snap.(stars_text) = 5%nat /\
  snap.(ticker) = upper sym.
Proof.
  intros H.
  assert (exists use_fmp info nm pr mc,
            respond w sym use_fmp info nm pr mc = Ok snap)
    as (use_fmp & info & nm & pr & mc & Hr).
  { rewrite get_company_steps in H.
    destruct (fetch_yahoo_info_with_retry w sym default_max_retries
                default_base_sleep st) as [[info|[sc d|cls msg]] st1];
      [eauto 6| |discriminate].
    destruct (fetch_fmp_info w sym st1) as [[info|e0] st2];
      [eauto 6|discriminate]. }
  apply respond_ok in Hr as (Hscore & Hstars & Htk & _ & _ & _ & Hm & _).
  assert (Hrange := score_company_ok_range _ _ Hscore).
  destruct (stars_from_score_range (composite_score snap) (proj1 Hrange))
    as (n & g & Hng & Hn & Hlen & _).
  rewrite Hstars in Hng. injection Hng as <- <-.
  split; [by rewrite Hm|]. split; [done|]. split; [done|].
  split; [done|]. split; [done|]. done.
Qed.

Lemma snapshot_consistent_witness :
  exists snap,
    fst (get_company recovering_world "ACME" start) = Ok snap /\
    score_company snap.(metrics) = Ok snap.(composite_score) /\
    0 <= snap.(composite_score) <= 100 /\
    stars_from_score snap.(composite_score)
    = Some (snap.(stars), snap.(stars_text)) /\
    1 <= snap.(stars) <= 5 /\
    py_len snap.(stars_text) = 5%nat /\
    snap.(ticker) = upper "ACME".
Proof.
  eexists. split; [reflexivity|].
  apply (snapshot_consistent recovering_world "ACME" start). reflexivity.
Defined.

(** X19. When Yahoo answers, the switch to FMP does not happen: no request
    is sent to FMP, and the snapshot, if there is one, is built from
    Yahoo's payload and says so in its note.  There is none only when
    scoring raises its [TypeError] or the response model its
    [ValidationError]. *)
Theorem primary_answer_is_used (w : world) (ticker : string) (st st1 : trace)
    (info : dict) :
  fetch_yahoo_info_with_retry w ticker default_max_retries default_base_sleep st
  = (Ok info, st1) ->
  snd (get_company w ticker st) = st1 /\
  requests (snd (get_company w ticker st)) = requests st /\
  match fst (get_company w ticker st) with
  | Ok snap =>
      snap.(notes) = "Yahoo primary. Data cached 1h." /\
      snap.(metrics) = build_metrics info /\
      snap.(name) = py_or (py_or (dict_get info "longName")
                                 (dict_get info "shortName"))
                          (PyStr (upper ticker))
  | Raise e =>
      (exists msg, e = PyExc "TypeError" msg) \/
      (exists msg, e = PyExc "ValidationError" msg)
  end.
Proof.
  intros Hy.
  assert (Hreq := fetch_yahoo_requests w ticker default_max_retries
                    default_base_sleep st default_base_sleep_nonneg).
  rewrite get_company_steps. rewrite Hy in *. cbn [fst snd] in *.
  split; [done|]. split; [done|].
  match goal with |- context [respond ?w ?t ?b ?i ?n ?p ?c] =>
    destruct (respond w t b i n p c) as [snap|e] eqn:Hr end.
  - apply respond_ok in Hr as (_ & _ & _ & Hnm & _ & _ & Hm & _ & Hnt).
    split; [by rewrite Hnt|]. by split.
  - by apply respond_raises in Hr.
Qed.

Lemma primary_answer_is_used_witness :
  snd (get_company recovering_world "ACME" start)
  = advance start 3 (backoff 1.5 (seqZ 0 2)) /\
  requests (snd (get_company recovering_world "ACME" start)) = requests start /\
  match fst (get_company recovering_world "ACME" start) with
  | Ok snap =>
      snap.(notes) = "Yahoo primary. Data cached 1h." /\
      snap.(metrics) = build_metrics acme_info /\
      snap.(name) = py_or (py_or (dict_get acme_info "longName")
                                 (dict_get acme_info "shortName"))
                          (PyStr (upper "ACME"))
  | Raise e =>
      (exists msg, e = PyExc "TypeError" msg) \/
      (exists msg, e = PyExc "ValidationError" msg)
  end.
Proof.
  apply (primary_answer_is_used recovering_world "ACME" start). reflexivity.
Defined.

(** X20. When Yahoo fails and FMP answers, the snapshot says so in its
    note, its forward PEG and trailing P/E are absent, and its score is at
    most 90: the 20 points of the PEG line are out of reach. *)
Theorem fallback_score_at_most_90 (w : world) (ticker : string) (st : trace)
    (e : exn) (snap : Snapshot) :
  fst (fetch_yahoo_info_with_retry w ticker
         default_max_retries default_base_sleep st) = Raise e ->
  fst (get_company w ticker st) = Ok snap ->
  snap.(notes) = "FMP fallback (Yahoo blocked/crumb/rate limit). Data cached 1h." /\
  dict_get snap.(metrics) "peg_fwd" = PyNone /\
  dict_get snap.(metrics) "pe" = PyNone /\
  snap.(composite_score) <= 90.
Proof.
  intros Hy. rewrite get_company_steps.
  destruct (fetch_yahoo_info_with_retry w ticker default_max_retries
              default_base_sleep st) as [[info|[sc d|cls msg]] st1];
    cbn [fst] in Hy; [discriminate| |discriminate].
  pose proof (fetch_fmp_info_cases w ticker st1) as Hf.
  destruct (fetch_fmp_info w ticker st1) as [[info|e0] st2];
    cbn [fst] in *; [|discriminate].
  destruct Hf as [[e' [=]]|(info' & [= <-] & Hpeg & Hpe & _)].
  intros Hr.
  apply respond_ok in Hr as (Hscore & _ & _ & _ & _ & _ & Hm & _ & Hnt).
  assert (dict_get (build_metrics info) "peg_fwd" = PyNone) as Hpeg'.
  { unfold build_metrics. simpl_get. exact Hpeg. }
  assert (dict_get (build_metrics info) "pe" = PyNone) as Hpe'.
  { unfold build_metrics. simpl_get. exact Hpe. }
  split; [by rewrite Hnt|]. split; [by rewrite Hm|].
  split; [by rewrite Hm|]. by apply (score_without_peg _ _ Hpeg').
Qed.

Lemma fallback_score_at_most_90_witness :
  exists snap,
    fst (get_company ratios_down_world "ACME" start) = Ok snap /\
    snap.(notes) = "FMP fallback (Yahoo blocked/crumb/rate limit). Data cached 1h." /\
    dict_get snap.(metrics) "peg_fwd" = PyNone /\
    dict_get snap.(metrics) "pe" = PyNone /\
    snap.(composite_score) <= 90.
Proof.
  eexists. split; [reflexivity|].
  apply (fallback_score_at_most_90 ratios_down_world "ACME" start
           (HTTPException 429 "Yahoo blocked the request (rate/crumb).")).
  - reflexivity.
  - reflexivity.
Defined.

(** X21. A ticker the fallback knows nothing about is not an error: when
    Yahoo fails and FMP answers the profile request with no record, and the
    other two requests with no record or a failure, the endpoint returns a
    snapshot named after the ticker, with every metric absent, a score of
    0, one star and no filing. *)
Theorem unknown_ticker_degrades (w : world) (sym : string) (st : trace)
    (e : exn) (p : json) :
  fst (fetch_yahoo_info_with_retry w sym
         default_max_retries default_base_sleep st) = Raise e ->
  fmp_outcome w ("/profile/" +:+ sym) = Ok p ->
  first_record p = ∅ ->
  match fmp_outcome w ("/ratios-ttm/" +:+ sym) with
  | Ok r => first_record r = ∅
  | Raise _ => True
  end ->
  match fmp_outcome w ("/financial-growth/" +:+ sym) with
  | Ok g => first_record g = ∅
  | Raise _ => True
  end ->
  fst (get_company w sym st)
  = Ok {| ticker := upper sym; name := PyStr (upper sym); price := PyNone;
          market_cap := PyNone; metrics := build_metrics ∅;
          composite_score := 0; stars := 1; stars_text := "★☆☆☆☆";
          filings := None;
          notes := "FMP fallback (Yahoo blocked/crumb/rate limit). Data cached 1h." |}.
Proof.
  intros Hy Hp Hp0 Hr Hg.
  destruct (fetch_yahoo_raises_http w sym st e Hy) as (sc & d & ->).
  rewrite get_company_steps.
  destruct (fetch_yahoo_info_with_retry w sym default_max_retries
              default_base_sleep st) as [ry st1].
  cbn [fst] in Hy. subst ry.
  assert (fetch_fmp_info w sym st1
          = (Ok (<["longName" := PyNone]>
                 (<["currentPrice" := PyNone]>
                 (<["marketCap" := PyNone]>
                 (<["forwardPE" := PyNone]>
                 (<["pegRatio" := PyNone]>
                 (<["grossMargins" := PyNone]>
                 (<["operatingMargins" := PyNone]>
                 (<["revenueGrowth" := PyNone]>
                 (<["earningsGrowth" := PyNone]>
                 (<["returnOnEquity" := PyNone]>
                 (<["returnOnCapitalEmployed" := PyNone]>
                 (<["debtToEquity" := PyNone]>
                 (<["cik" := PyNone]> ∅))))))))))))),
             fmp_after w ("/financial-growth/" +:+ sym)
               (fmp_after w ("/ratios-ttm/" +:+ sym)
                  (fmp_after w ("/profile/" +:+ sym) st1)))) as ->.
  { unfold fetch_fmp_info. rewrite io_bind_run, try_fmp_get, Hp.
    cbv beta iota. rewrite Hp0.
    rewrite io_bind_run, try_fmp_get. cbv beta iota.
    rewrite io_bind_run, try_fmp_get. cbv beta iota.
    destruct (fmp_outcome w ("/ratios-ttm/" +:+ sym)) as [r|er];
      destruct (fmp_outcome w ("/financial-growth/" +:+ sym)) as [g|eg];
      rewrite ?Hr, ?Hg; reflexivity. }
  reflexivity.
Qed.

Lemma unknown_ticker_degrades_witness :
  fst (get_company empty_fmp_world "zzzz" start)
  = Ok {| ticker := upper "zzzz"; name := PyStr (upper "zzzz"); price := PyNone;
          market_cap := PyNone; metrics := build_metrics ∅;
          composite_score := 0; stars := 1; stars_text := "★☆☆☆☆";
          filings := None;
          notes := "FMP fallback (Yahoo blocked/crumb/rate limit). Data cached 1h." |}.
Proof.
  apply (unknown_ticker_degrades empty_fmp_world "zzzz" start
           (HTTPException 429 "Yahoo blocked the request (rate/crumb).")
           (JList [])); reflexivity.
Defined.

(** X22. For a non-empty ticker the name of a snapshot is never missing:
    when the provider has no name, it is the ticker in upper case. *)
Theorem snapshot_has_name (w : world) (sym : string) (st : trace)
    (snap : Snapshot) :
  sym <> "" ->
  fst (get_company w sym st) = Ok snap ->
  truthy snap.(name) = true.
Proof.
  intros Hsym H.
  assert (truthy (PyStr (upper sym)) = true) as Hup
    by (destruct sym; [done|reflexivity]).
  rewrite get_company_steps in H.
  destruct (fetch_yahoo_info_with_retry w sym default_max_retries
              default_base_sleep st) as [[info|[sc d|cls msg]] st1];
    [| |discriminate].
  - cbn [fst] in H. apply respond_ok in H as (_ & _ & _ & -> & _).
    by apply truthy_py_or_r.
  - destruct (fetch_fmp_info w sym st1) as [[info|e0] st2]; [|discriminate].
    cbn [fst] in H. apply respond_ok in H as (_ & _ & _ & -> & _).
    by apply truthy_py_or_r.
Qed.

Lemma snapshot_has_name_witness :
  exists snap,
    fst (get_company empty_fmp_world "zzzz" start) = Ok snap /\
    truthy snap.(name) = true.
Proof.
  eexists. split; [reflexivity|].
  apply (snapshot_has_name empty_fmp_world "zzzz" start); [done|reflexivity].
Defined.

(** X23. Without an FMP key the caller never sees the 503 of [fmp_get]:
    whenever Yahoo fails, the endpoint raises 502 with the 503 quoted in
    its detail, and sends no request to FMP. *)
Theorem missing_key_always_502 (w : world) (sym : string) (st : trace)
    (e : exn) :
  key_set (FMP_KEY w) = None ->
  fst (fetch_yahoo_info_with_retry w sym
         default_max_retries default_base_sleep st) = Raise e ->
  fst (get_company w sym st)
  = Raise (HTTPException 502
      "FMP profile error: 503: FMP API key not set. Set FMP_API_KEY env var.") /\
  requests (snd (get_company w sym st)) = requests st.
Proof.
  intros Hkey Hy.
  destruct (fetch_yahoo_raises_http w sym st e Hy) as (sc & d & ->).
  assert (Hreq := fetch_yahoo_requests w sym default_max_retries
                    default_base_sleep st default_base_sleep_nonneg).
  destruct (fetch_yahoo_info_with_retry w sym default_max_retries
              default_base_sleep st) as [ry st1] eqn:Hrun.
  cbn [fst snd] in *. subst ry.
  rewrite (get_company_no_key w sym st sc d st1 Hkey Hrun). done.
Qed.

Lemma missing_key_always_502_witness :
  fst (get_company slow_world "ACME" start)
  = Raise (HTTPException 502
      "FMP profile error: 503: FMP API key not set. Set FMP_API_KEY env var.") /\
  requests (snd (get_company slow_world "ACME" start)) = requests start.
Proof.
  apply (missing_key_always_502 slow_world "ACME" start
           (HTTPException 502 "Yahoo request failed: Read timed out."));
    reflexivity.
Defined.

(** A price that is no number is refused by the response model: the
    endpoint raises its [ValidationError], although Yahoo answered. *)
Lemma invalid_price_raises :
  fst (get_company na_price_world "ACME" start)
  = Raise (PyExc "ValidationError" "price").
Proof. reflexivity. Qed.
